(** * plixel.CsvAnalyser: a shallow embedding and its properties

    [CsvAnalyser] (src/plixel/CsvAnalyser.py) wraps a pandas DataFrame.
    The class keeps two references, [_df] and [df], to DataFrame objects
    that live on the Python heap; some methods mutate the object behind
    [df] in place, others build and return a new frame.

    The embedding has three layers:
    - values, dtypes and frames, with the pandas operations the class
      calls (boolean-mask selection, [iloc], [concat], [dropna], [drop],
      [select_dtypes], assignment to [columns]);
    - a state-and-exception monad [Py] over a world made of the object
      heap, the file system and the log of file-system accesses;
    - the methods of [CsvAnalyser], written in that monad line by line. *)

From Stdlib Require Import ZArith String Ascii Floats DecimalString Bool Lia.
From stdpp Require Import base option list gmap strings.

(** ** Values and dtypes *)

(** A cell of a frame.  [VFloat nan] is pandas' missing-value marker
    ([numpy.nan]); [VNone] is Python's [None], which an object column
    can hold as well. *)
Inductive Value :=
| VInt (z : Z)
| VFloat (f : float)
| VBool (b : bool)
| VStr (s : string)
| VNone.

Inductive Dtype := int64 | float64 | bool_ | object_.

Global Instance Dtype_eq_dec : EqDecision Dtype.
Proof. solve_decision. Defined.

Definition NaN : Value := VFloat nan.

(** [pandas.isna] on one cell. *)
Definition isna (v : Value) : bool :=
  match v with
  | VFloat f => is_nan f
  | VNone => true
  | _ => false
  end.

(** Conversion of an integer to float64, rounding to nearest even. *)
Definition Z2F (z : Z) : float := SF2Prim (binary_normalize prec emax z 0 false).

(** The integer a float denotes, when it denotes one exactly. *)
Definition F2Z_exact (f : float) : option Z :=
  match Prim2SF f with
  | S754_zero _ => Some 0%Z
  | S754_finite sg m e =>
      let sign := if sg then (-1)%Z else 1%Z in
      if (0 <=? e)%Z then Some (sign * (Z.pos m * 2 ^ e))%Z
      else if (Z.pos m mod 2 ^ (- e) =? 0)%Z
           then Some (sign * (Z.pos m / 2 ^ (- e)))%Z
           else None
  | _ => None
  end.

(** Python's [==] between two scalars: [bool] is a subtype of [int],
    an [int] and a [float] are compared by their exact values. *)
Definition py_eq (x y : Value) : bool :=
  let num v :=
    match v with
    | VInt z => Some (inl z)
    | VBool b => Some (inl (Z.b2z b))
    | VFloat f => Some (inr f)
    | _ => None
    end in
  match x, y with
  | VStr a, VStr b => String.eqb a b
  | VNone, VNone => true
  | _, _ =>
      match num x, num y with
      | Some (inl a), Some (inl b) => (a =? b)%Z
      | Some (inr f), Some (inr g) => PrimFloat.eqb f g
      | Some (inl a), Some (inr f) | Some (inr f), Some (inl a) =>
          match F2Z_exact f with Some b => (a =? b)%Z | None => false end
      | _, _ => false
      end
  end.

(** numpy's [==] between a cell of a numeric or boolean column and a
    scalar: both sides are brought to a common numeric type; an
    incomparable scalar gives [False]. *)
Definition np_eq (x y : Value) : bool :=
  let num v :=
    match v with
    | VInt z => Some (inl z)
    | VBool b => Some (inl (Z.b2z b))
    | VFloat f => Some (inr f)
    | _ => None
    end in
  match num x, num y with
  | Some (inl a), Some (inl b) => (a =? b)%Z
  | Some (inr f), Some (inr g) => PrimFloat.eqb f g
  | Some (inl a), Some (inr f) | Some (inr f), Some (inl a) =>
      PrimFloat.eqb (Z2F a) f
  | _, _ => false
  end.

(** One element of [series == value].  In an object column pandas
    answers [False] as soon as either side is missing and otherwise asks
    Python; the other columns are compared by numpy. *)
Definition elem_eq (d : Dtype) (x value : Value) : bool :=
  match d with
  | object_ => if isna x || isna value then false else py_eq x value
  | _ => np_eq x value
  end.

(** The dtype that can hold every dtype of the list
    ([pandas.core.dtypes.cast.find_common_type] on these four dtypes):
    a boolean mixed with numbers gives objects. *)
Definition find_common_type (ds : list Dtype) : Dtype :=
  match ds with
  | [] => object_
  | d :: ds' =>
      if forallb (λ d', bool_decide (d' = d)) ds' then d
      else if forallb (λ d', bool_decide (d' = int64 ∨ d' = float64)) ds then float64
      else object_
  end.

(** The dtype a column takes when missing cells have to be added. *)
Definition ensure_dtype_can_hold_na (d : Dtype) : Dtype :=
  match d with
  | int64 => float64
  | bool_ => object_
  | _ => d
  end.

(** [astype] on one cell, for the upcasts above. *)
Definition astype (d : Dtype) (v : Value) : Value :=
  match d, v with
  | float64, VInt z => VFloat (Z2F z)
  | _, _ => v
  end.

(** ** Series and frames *)

(** A column: its label, its dtype and its cells, top to bottom. *)
Record Series := { name : string; dtype : Dtype; values : list Value }.

(** A frame: the row labels and the columns, left to right. *)
Record DataFrame := { row_labels : list Z; cols : list Series }.

Definition columns (t : DataFrame) : list string := name <$> cols t.
Definition len (t : DataFrame) : nat := length (row_labels t).

(** The frames of the specification's data model: column names are
    unique and every column has one cell per row. *)
Definition wf_frame (t : DataFrame) : Prop :=
  NoDup (columns t) ∧ Forall (λ s, length (values s) = len t) (cols t).

(** Selection by a boolean mask, as in [frame[mask]]. *)
Fixpoint select {A} (mask : list bool) (l : list A) : list A :=
  match mask, l with
  | b :: mask', x :: l' => if b then x :: select mask' l' else select mask' l'
  | _, _ => []
  end.

Definition select_series (mask : list bool) (s : Series) : Series :=
  {| name := name s; dtype := dtype s; values := select mask (values s) |}.

Definition getitem_mask (t : DataFrame) (mask : list bool) : DataFrame :=
  {| row_labels := select mask (row_labels t);
     cols := select_series mask <$> cols t |}.

(** The rows of a frame as records: the row label and the cells keyed
    by column name. *)
Definition Record_ : Type := Z * list (string * Value).

Definition behead (s : Series) : Series :=
  {| name := name s; dtype := dtype s; values := tail (values s) |}.

Fixpoint records_from (labels : list Z) (ss : list Series) : list Record_ :=
  match labels with
  | [] => []
  | i :: labels' =>
      (i, omap (λ s, pair (name s) <$> head (values s)) ss)
        :: records_from labels' (behead <$> ss)
  end.

Definition records (t : DataFrame) : list Record_ :=
  records_from (row_labels t) (cols t).

(** [row[column]] on a record: the first cell under that name. *)
Fixpoint assoc (column : string) (kvs : list (string * Value)) : option Value :=
  match kvs with
  | [] => None
  | (k, v) :: kvs' => if String.eqb k column then Some v else assoc column kvs'
  end.


(** ** Python exceptions, the world, and the [Py] monad *)

Inductive Exception :=
| ValueError (msg : string)
| FileNotFoundError (msg : string)
| IndexError (msg : string)
| TypeError (msg : string)
| KeyError (msg : string)
| InvalidIndexError (msg : string)
| ParserError (msg : string).

Inductive Outcome (A : Type) :=
| Return (a : A)
| Raise (e : Exception).
Arguments Return {A} a.
Arguments Raise {A} e.

(** What a path holds: text that [pandas.read_csv] parses into a frame,
    or text that it rejects. *)
Inductive File :=
| Parsed (t : DataFrame)
| Malformed (msg : string).

Inductive IOEvent :=
| PathExists (path : string)
| ReadCsv (path : string).

(** References to DataFrame objects are positions in the heap. *)
Definition loc := nat.

Record World := {
  heap : list DataFrame;
  fs : gmap string File;
  log : list IOEvent
}.

Definition set_heap (h : list DataFrame) (w : World) : World :=
  {| heap := h; fs := fs w; log := log w |}.
Definition add_log (e : IOEvent) (w : World) : World :=
  {| heap := heap w; fs := fs w; log := log w ++ [e] |}.

(** A computation either leaves the model ([None]: a dangling reference,
    or a pandas behaviour on duplicated labels that is not modelled), or
    returns a value or raises, in both cases with the world it leaves. *)
Definition Py (A : Type) : Type := World → option (Outcome A * World).

Definition ret {A} (a : A) : Py A := λ w, Some (Return a, w).
Definition raise {A} (e : Exception) : Py A := λ w, Some (Raise e, w).
Definition stuck {A} : Py A := λ _, None.
Definition bind {A B} (m : Py A) (k : A → Py B) : Py B := λ w,
  match m w with
  | Some (Return a, w') => k a w'
  | Some (Raise e, w') => Some (Raise e, w')
  | None => None
  end.

Notation "x ←' m ; k" := (bind m (λ x, k))
  (at level 20, m at level 100, k at level 200, only parsing).
Notation "m ;;' k" := (bind m (λ _, k))
  (at level 100, k at level 200, only parsing, right associativity).

(** Reading the object behind a reference. *)
Definition deref (l : loc) : Py DataFrame := λ w,
  match heap w !! l with
  | Some t => Some (Return t, w)
  | None => None
  end.

(** In-place mutation of the object behind a reference. *)
Definition assign (l : loc) (t : DataFrame) : Py unit := λ w,
  match heap w !! l with
  | Some _ => Some (Return (), set_heap (<[l := t]> (heap w)) w)
  | None => None
  end.

(** A new object. *)
Definition alloc (t : DataFrame) : Py loc := λ w,
  Some (Return (length (heap w)), set_heap (heap w ++ [t]) w).

(** A pure pandas call that may raise. *)
Definition lift {A} (o : Outcome A) : Py A := λ w, Some (o, w).

(** [os.path.exists]. *)
Definition os_path_exists (path : string) : Py bool := λ w,
  Some (Return (bool_decide (is_Some (fs w !! path))), add_log (PathExists path) w).

(** [pandas.read_csv]: a new frame, or the reader's error. *)
Definition read_csv (path : string) : Py loc := λ w,
  let w' := add_log (ReadCsv path) w in
  match fs w !! path with
  | Some (Parsed t) => alloc t w'
  | Some (Malformed msg) => raise (ParserError msg) w'
  | None =>
      raise (FileNotFoundError
               ("[Errno 2] No such file or directory: '" +:+ path +:+ "'")) w'
  end.

(** ** The pandas operations the class calls *)

(** Python's [str] of an integer and [repr] of a list of strings. *)
Definition str_Z (z : Z) : string := NilZero.string_of_int (Z.to_int z).

Definition repr_list (l : list string) : string :=
  let quoted := (λ s, "'" +:+ s +:+ "'") <$> l in
  "[" +:+ String.concat ", " quoted +:+ "]".

(** [frame[column]] for a label that names one column.  A label that
    names several columns gives a frame in pandas; that case is left out
    of the model. *)
Definition getitem (t : DataFrame) (column : string) : Py Series :=
  match filter (λ s, name s = column) (cols t) with
  | [] => raise (KeyError column)
  | [s] => ret s
  | _ => stuck
  end.

(** [series == value], element by element. *)
Definition series_eq (s : Series) (value : Value) : list bool :=
  (λ x, elem_eq (dtype s) x value) <$> values s.

(** [frame.iloc[i]] for an integer [i]: Python's negative positions
    count from the end; the cells of the row are brought to the common
    dtype of the columns. *)
Record RowSeries := { label : Z; items : list (string * Value) }.

Definition iloc (t : DataFrame) (i : Z) : Py RowSeries :=
  let n := Z.of_nat (len t) in
  if ((i >=? n) || (i <? - n))%Z
  then raise (IndexError "single positional indexer is out-of-bounds")
  else
    let k := Z.to_nat (if (i <? 0)%Z then i + n else i)%Z in
    let d := find_common_type (dtype <$> cols t) in
    match row_labels t !! k,
          mapM (λ s, (λ v, (name s, astype d v)) <$> values s !! k) (cols t) with
    | Some l, Some kvs => ret {| label := l; items := kvs |}
    | _, _ => stuck
    end.

(** [frame.select_dtypes(include="number")]. *)
Definition is_number (d : Dtype) : bool :=
  match d with int64 | float64 => true | _ => false end.

Definition select_dtypes_number (t : DataFrame) : DataFrame :=
  {| row_labels := row_labels t;
     cols := filter (λ s, is_number (dtype s)) (cols t) |}.

(** [frame.columns = names]. *)
Definition rename (c : string) (s : Series) : Series :=
  {| name := c; dtype := dtype s; values := values s |}.

Definition set_columns (t : DataFrame) (names : list string) : Outcome DataFrame :=
  if bool_decide (length names = length (cols t))
  then Return {| row_labels := row_labels t; cols := zip_with rename names (cols t) |}
  else Raise (ValueError
                ("Length mismatch: Expected axis has "
                   +:+ str_Z (Z.of_nat (length (cols t)))
                   +:+ " elements, new values have "
                   +:+ str_Z (Z.of_nat (length names)) +:+ " elements")).

(** [frame.dropna()]: the rows without a missing cell. *)
Definition notna_mask (t : DataFrame) : list bool :=
  foldr (λ s mask, zip_with andb ((λ v, negb (isna v)) <$> values s) mask)
        (replicate (len t) true) (cols t).

Definition dropna (t : DataFrame) : DataFrame := getitem_mask t (notna_mask t).

(** [frame.drop(columns=labels)]. *)
Definition drop (t : DataFrame) (labels : list string) : Outcome DataFrame :=
  match filter (λ c, c ∉ columns t) labels with
  | [] => Return {| row_labels := row_labels t;
                    cols := filter (λ s, name s ∉ labels) (cols t) |}
  | missing => Raise (KeyError (repr_list missing +:+ " not found in axis"))
  end.

(** [pandas.concat([t1, t2], axis=0, ignore_index=True)].  A frame
    with neither rows nor columns is left out when the other frame has
    some.  Otherwise the columns are the union of both column lists in
    order of first appearance; a column absent from one frame is filled
    with NaN there, which moves its dtype to one that holds NaN; a
    column of both frames takes the dtype numpy promotes their dtypes
    to, with booleans cast to 0 and 1 among numbers; the rows are
    labelled 0, 1, 2, ...

    One case is decided in pandas by the block layout of the frames,
    which a frame here does not carry: a part of a shared column that
    holds only missing cells, or no cell.  pandas may then take the
    dtype of the other part alone and write one missing marker in every
    cell of that part, where this definition promotes both dtypes and
    keeps the cells as they were.  The cells that are present are the
    same in both, and a missing cell is a missing cell in both. *)
Definition find_series (c : string) (t : DataFrame) : option Series :=
  List.find (λ s, String.eqb (name s) c) (cols t).

Definition union_columns (a b : list string) : list string :=
  a ++ filter (λ c, c ∉ a) b.

(** [numpy.result_type] on two of the four dtypes. *)
Definition np_result_type (a b : Dtype) : Dtype :=
  match a, b with
  | object_, _ | _, object_ => object_
  | float64, _ | _, float64 => float64
  | int64, _ | _, int64 => int64
  | bool_, bool_ => bool_
  end.

(** The cast of one cell into an array of dtype [d]. *)
Definition np_cast (d : Dtype) (v : Value) : Value :=
  match d, v with
  | float64, VInt z => VFloat (Z2F z)
  | float64, VBool b => VFloat (Z2F (Z.b2z b))
  | int64, VBool b => VInt (Z.b2z b)
  | _, _ => v
  end.

(** What one frame contributes to column [c] of the result: the dtype
    and the cells of its column [c], or a block of NaN. *)
Definition column_part (t : DataFrame) (c : string) : option Dtype * list Value :=
  match find_series c t with
  | Some s => (Some (dtype s), values s)
  | None => (None, replicate (len t) NaN)
  end.

Definition concat_column (t1 t2 : DataFrame) (c : string) : Series :=
  let p1 := column_part t1 c in
  let p2 := column_part t2 c in
  let d :=
    match p1.1, p2.1 with
    | Some a, Some b => np_result_type a b
    | Some a, None | None, Some a => ensure_dtype_can_hold_na a
    | None, None => object_
    end in
  {| name := c; dtype := d; values := np_cast d <$> (p1.2 ++ p2.2) |}.

Definition append_series (s1 s2 : Series) : Series :=
  let d := np_result_type (dtype s1) (dtype s2) in
  {| name := name s1; dtype := d; values := np_cast d <$> (values s1 ++ values s2) |}.

Definition outer_join (t1 t2 : DataFrame) : DataFrame :=
  {| row_labels := seqZ 0 (Z.of_nat (len t1 + len t2));
     cols := concat_column t1 t2 <$> union_columns (columns t1) (columns t2) |}.

(** A frame with neither rows nor columns, and a frame under the row
    labels 0, 1, 2, ... *)
Definition is_empty_frame (t : DataFrame) : bool :=
  match cols t, row_labels t with
  | [], [] => true
  | _, _ => false
  end.

Definition reset_index (t : DataFrame) : DataFrame :=
  {| row_labels := seqZ 0 (Z.of_nat (len t)); cols := cols t |}.

Definition concat (t1 t2 : DataFrame) : Outcome DataFrame :=
  let labels := seqZ 0 (Z.of_nat (len t1 + len t2)) in
  if is_empty_frame t2 && negb (is_empty_frame t1) then
    Return (reset_index t1)
  else if is_empty_frame t1 && negb (is_empty_frame t2) then
    Return (reset_index t2)
  else if bool_decide (NoDup (columns t1)) && bool_decide (NoDup (columns t2)) then
    Return (outer_join t1 t2)
  else if bool_decide (columns t1 = columns t2) then
    Return {| row_labels := labels;
              cols := zip_with append_series (cols t1) (cols t2) |}
  else
    Raise (InvalidIndexError "Reindexing only valid with uniquely valued Index objects").

(** [key in frame.columns]: the key is hashed first, and a list cannot be. *)
Inductive ColumnArg :=
| Name (column : string)
| Names (columns : list string).

Definition Index_contains (key : ColumnArg) (labels : list string) : Outcome bool :=
  match key with
  | Name c => Return (bool_decide (c ∈ labels))
  | Names _ => Raise (TypeError "unhashable type: 'list'")
  end.

Definition str_arg (key : ColumnArg) : string :=
  match key with
  | Name c => c
  | Names l => repr_list l
  end.

Definition labels_of (key : ColumnArg) : list string :=
  match key with
  | Name c => [c]
  | Names l => l
  end.

(** Python's [str.endswith] with a tuple of suffixes, [str.lower] and
    [str.replace] for one-character arguments.  [lower] is the path
    [str.lower] takes on an ASCII string: the letters A-Z go to a-z and
    every other character stays.  A string with other characters goes
    through the Unicode case tables in Python; that path is not
    modelled, and the statements about what [lower] computes are made
    for ASCII strings ([is_ascii], Python's [str.isascii]). *)
Definition endswith1 (s suffix : string) : bool :=
  let n := String.length s in
  let k := String.length suffix in
  (k <=? n) && String.eqb (substring (n - k) k s) suffix.

Definition endswith (s : string) (suffixes : list string) : bool :=
  existsb (endswith1 s) suffixes.

Definition lower_ascii (c : ascii) : ascii :=
  let n := nat_of_ascii c in
  if (65 <=? n) && (n <=? 90) then ascii_of_nat (n + 32) else c.

Fixpoint lower (s : string) : string :=
  match s with
  | EmptyString => EmptyString
  | String c s' => String (lower_ascii c) (lower s')
  end.

Fixpoint replace (old new : ascii) (s : string) : string :=
  match s with
  | EmptyString => EmptyString
  | String c s' => String (if Ascii.eqb c old then new else c) (replace old new s')
  end.

Fixpoint is_ascii (s : string) : bool :=
  match s with
  | EmptyString => true
  | String c s' => (nat_of_ascii c <? 128) && is_ascii s'
  end.

(** The new header of one column in [standardise_headers]:
    [col.lower().replace(" ", "_")]. *)
Definition standardise_header (col : string) : string :=
  replace " " "_" (lower col).

(** ** The class *)

(** [self._df] and [self.df] are references; [self._path] exists only
    on an instance built from a path. *)
Record CsvAnalyser := { _df : loc; df : loc; _path : option string }.

Definition __init__ (df : option loc) (file_path : option string) : Py CsvAnalyser :=
  match df with
  | Some df => ret {| _df := df; df := df; _path := None |}
  | None =>
      match file_path with
      | Some file_path =>
          if endswith file_path [".csv"; ".data"] then
            e ←' os_path_exists file_path;
            if negb e
            then raise (FileNotFoundError ("File '" +:+ file_path +:+ "' not found"))
            else
              d0 ←' read_csv file_path;
              d1 ←' read_csv file_path;
              ret {| _df := d0; df := d1; _path := Some file_path |}
          else raise (ValueError "Must provide atleast one argument")
      | None => raise (ValueError "Must provide atleast one argument")
      end
  end.

(** The aggregations of a pandas Series that [get_trends] dispatches
    to.  They are library routines on floating-point data; the class is
    their interface, and [reference_stats] below evaluates them from
    left to right. *)
Class SeriesStats := {
  Series_mean : Series → Value;
  Series_median : Series → Value;
  Series_max : Series → Value;
  Series_min : Series → Value;
  Series_std : Series → Value;
  Series_var : Series → Value
}.

(** A dict comprehension [{k: f(k) for k in keys}]: the values are
    computed and stored key by key, a repeated key overwrites. *)
Fixpoint dict_comp (keys : list string) (f : string → Py Value)
    (acc : gmap string Value) : Py (gmap string Value) :=
  match keys with
  | [] => ret acc
  | k :: keys' => v ←' f k; dict_comp keys' f (<[k := v]> acc)
  end.

(** One entry of the dispatch table, [lambda col: self.df[col].stat()]:
    the frame behind [self.df] is read when the entry is called. *)
Definition column_stat (self : CsvAnalyser) (stat : Series → Value)
    : string → Py Value :=
  λ col, t ←' deref (df self); s ←' getitem t col; ret (stat s).

Section Methods.
Context `{SeriesStats}.

Definition metrics (self : CsvAnalyser) : gmap string (string → Py Value) :=
  list_to_map
    [ ("mean", column_stat self Series_mean);
      ("median", column_stat self Series_median);
      ("max", column_stat self Series_max);
      ("min", column_stat self Series_min);
      ("std", column_stat self Series_std);
      ("var", column_stat self Series_var) ].

Definition get_trends (self : CsvAnalyser) (metric : string)
    : Py (gmap string Value) :=
  t ←' deref (df self);
  let numeric_cols := columns (select_dtypes_number t) in
  match metrics self !! metric with
  | None => raise (ValueError ("Unsupported metric: " +:+ metric))
  | Some f => dict_comp numeric_cols f ∅
  end.

End Methods.

Definition filter_rows (self : CsvAnalyser) (column : string) (value : Value)
    : Py loc :=
  t ←' deref (df self);
  if negb (bool_decide (column ∈ columns t))
  then raise (ValueError ("Column '" +:+ column +:+ "' not found in the DataFrame"))
  else
    s ←' getitem t column;
    alloc (getitem_mask t (series_eq s value)).

Definition merge_csv (self : CsvAnalyser) (file_path : string) : Py loc :=
  e ←' os_path_exists file_path;
  if negb e
  then raise (FileNotFoundError ("File '" +:+ file_path +:+ "' not found"))
  else
    df2 ←' (if endswith file_path [".csv"; ".data"]
            then read_csv file_path
            else raise (ValueError "Only .csv files are supported"));
    t ←' deref (df self);
    t2 ←' deref df2;
    r ←' lift (concat t t2);
    alloc r.

Definition merge_dataframes (self : CsvAnalyser) (df2 : loc) : Py loc :=
  t ←' deref (df self);
  t2 ←' deref df2;
  r ←' lift (concat t t2);
  alloc r.

Definition change_to_init_state (self : CsvAnalyser) : Py CsvAnalyser :=
  ret {| _df := _df self; df := _df self; _path := _path self |}.

Definition standardise_headers (self : CsvAnalyser) : Py unit :=
  t ←' deref (df self);
  t' ←' lift (set_columns t (standardise_header <$> columns t));
  assign (df self) t'.

Definition get_row (self : CsvAnalyser) (index : Z) : Py RowSeries :=
  t ←' deref (df self);
  if (index >=? Z.of_nat (len t))%Z
  then raise (IndexError ("Index " +:+ str_Z index +:+ " out of bounds"))
  else iloc t index.

Definition drop_missing_values (self : CsvAnalyser) : Py loc :=
  t ←' deref (df self);
  assign (df self) (dropna t);;'
  ret (df self).

Definition drop_column (self : CsvAnalyser) (column : ColumnArg) : Py loc :=
  t ←' deref (df self);
  present ←' lift (Index_contains column (columns t));
  if negb present
  then raise (ValueError ("Column '" +:+ str_arg column +:+ "' not found in the DataFrame"))
  else
    r ←' lift (drop t (labels_of column));
    alloc r.

(** A sequence of calls on one instance.  [change_to_init_state]
    rebinds an attribute of the instance, so each call hands on the
    instance it leaves. *)
Inductive Call :=
| CallStandardiseHeaders
| CallDropMissingValues
| CallChangeToInitState.

Global Instance Call_eq_dec : EqDecision Call.
Proof. solve_decision. Defined.

Definition call (c : Call) (self : CsvAnalyser) : Py CsvAnalyser :=
  match c with
  | CallStandardiseHeaders => standardise_headers self;;' ret self
  | CallDropMissingValues => drop_missing_values self;;' ret self
  | CallChangeToInitState => change_to_init_state self
  end.

Fixpoint calls (cs : list Call) (self : CsvAnalyser) : Py CsvAnalyser :=
  match cs with
  | [] => ret self
  | c :: cs' => self' ←' call c self; calls cs' self'
  end.

(** ** The other methods *)

Definition get_column (self : CsvAnalyser) (column : string) : Py Series :=
  t ←' deref (df self);
  if negb (bool_decide (column ∈ columns t))
  then raise (ValueError ("Column '" +:+ column +:+ "' not found in the DataFrame"))
  else getitem t column.

(** [frame.isnull().sum().to_dict()]: per column, the number of missing
    cells; the dict is filled column by column. *)
Definition count_na (s : Series) : Z :=
  Z.of_nat (length (filter (λ v, isna v) (values s))).

Definition isnull_sum_to_dict (t : DataFrame) : gmap string Value :=
  foldl (λ m s, <[name s := VInt (count_na s)]> m) ∅ (cols t).

Definition check_missing_values (self : CsvAnalyser) : Py (gmap string Value) :=
  t ←' deref (df self);
  ret (isnull_sum_to_dict t).

(** [frame.drop_duplicates()]: a row is dropped when an earlier row
    holds an equal cell in every column.  A frame of several columns is
    compared through the codes [factorize] gives each column, where all
    missing cells of a column share one code; a frame of one column is
    compared through the hash table of that column, which tells [None]
    from NaN.  A frame without rows or without columns is returned as
    it is. *)
Definition same_missing (x y : Value) : bool :=
  match x, y with
  | VNone, VNone => true
  | VFloat f, VFloat g => is_nan f && is_nan g
  | _, _ => false
  end.

Definition dup_eq (single : bool) (d : Dtype) (x y : Value) : bool :=
  if isna x || isna y then
    if single then same_missing x y else isna x && isna y
  else match d with
       | object_ => py_eq x y
       | _ => np_eq x y
       end.

Fixpoint same_cells (single : bool) (ds : list Dtype)
    (xs ys : list (string * Value)) : bool :=
  match ds, xs, ys with
  | d :: ds', (_, x) :: xs', (_, y) :: ys' =>
      dup_eq single d x y && same_cells single ds' xs' ys'
  | _, _, _ => true
  end.

Definition same_row (single : bool) (ds : list Dtype) (r1 r2 : Record_) : bool :=
  same_cells single ds r1.2 r2.2.

Fixpoint duplicated_from (single : bool) (ds : list Dtype)
    (seen rs : list Record_) : list bool :=
  match rs with
  | [] => []
  | r :: rs' =>
      existsb (λ r', same_row single ds r' r) seen
        :: duplicated_from single ds (r :: seen) rs'
  end.

(** Does the frame have exactly one column? *)
Definition one_column (t : DataFrame) : bool :=
  match cols t with
  | [_] => true
  | _ => false
  end.

Definition duplicated (t : DataFrame) : list bool :=
  duplicated_from (one_column t) (dtype <$> cols t) [] (records t).

Definition drop_duplicates (t : DataFrame) : DataFrame :=
  match cols t, row_labels t with
  | [], _ | _, [] => t
  | _, _ => getitem_mask t (negb <$> duplicated t)
  end.

Definition remove_duplicates (self : CsvAnalyser) : Py loc :=
  t ←' deref (df self);
  alloc (drop_duplicates t).

(** The plotting calls of [plot_column], statement by statement.  What
    matplotlib and seaborn do is left open: each call is any
    computation. *)
Class Pyplot := {
  Figure : Type;
  plt_figure : Py unit;
  sns_histplot : Series → Py unit;
  sns_boxplot : Series → Py unit;
  plt_title : string → Py unit;
  plt_gcf : Py Figure
}.

Definition plot_column `{Pyplot} (self : CsvAnalyser) (column plot_type : string)
    : Py Figure :=
  t ←' deref (df self);
  if negb (bool_decide (column ∈ columns t))
  then raise (ValueError ("Column '" +:+ column +:+ "' not found in the DataFrame"))
  else
    (if String.eqb plot_type "histogram" then
       plt_figure;;'
       s ←' (t ←' deref (df self); getitem t column);
       sns_histplot s;;'
       plt_title ("Histogram of " +:+ column)
     else if String.eqb plot_type "boxplot" then
       plt_figure;;'
       s ←' (t ←' deref (df self); getitem t column);
       sns_boxplot s;;'
       plt_title ("Boxplot of " +:+ column)
     else raise (ValueError ("Unsupported plot type: " +:+ plot_type)));;'
    plt_gcf.

(** A plotting back end that draws nothing. *)
Definition blank_pyplot : Pyplot :=
  {| Figure := unit;
     plt_figure := ret ();
     sns_histplot := λ _, ret ();
     sns_boxplot := λ _, ret ();
     plt_title := λ _, ret ();
     plt_gcf := ret () |}.

(** ** Reference aggregations

    The aggregations evaluated from left to right in float64, skipping
    missing cells as pandas does by default ([skipna=True]); variance
    and standard deviation use [ddof=1].  They stand for the pandas
    aggregations on columns of fewer than eight cells: numpy adds eight
    or more cells by partial sums, so [mean], [var] and [std] can
    differ from it in the last bits on longer columns; and of two equal
    cells [min] and [max] keep one by position, so the sign of a zero
    they return can differ as well. *)
Module Reference.

Definition present_floats (s : Series) : list float :=
  omap (λ v, match v with
             | VInt z => Some (Z2F z)
             | VFloat f => if is_nan f then None else Some f
             | _ => None
             end) (values s).

Definition present_ints (s : Series) : list Z :=
  omap (λ v, match v with VInt z => Some z | _ => None end) (values s).

Definition fsum (xs : list float) : float := foldl PrimFloat.add 0%float xs.
Definition fcount (xs : list float) : float := Z2F (Z.of_nat (length xs)).

Definition mean (s : Series) : Value :=
  let xs := present_floats s in
  VFloat (fsum xs / fcount xs).

Definition var (s : Series) : Value :=
  let xs := present_floats s in
  if length xs <=? 1 then NaN
  else
    let avg := (fsum xs / fcount xs)%float in
    let sqr := (λ x, ((avg - x) * (avg - x))%float) <$> xs in
    VFloat (fsum sqr / Z2F (Z.of_nat (length xs - 1))).

Definition std (s : Series) : Value :=
  match var s with
  | VFloat v => VFloat (PrimFloat.sqrt v)
  | v => v
  end.

Fixpoint insert (x : float) (xs : list float) : list float :=
  match xs with
  | [] => [x]
  | y :: ys => if PrimFloat.leb x y then x :: xs else y :: insert x ys
  end.

Definition sort (xs : list float) : list float := foldr insert [] xs.

Definition median (s : Series) : Value :=
  let xs := sort (present_floats s) in
  let n := length xs in
  if Nat.even n then
    match xs !! (n / 2 - 1), xs !! (n / 2) with
    | Some a, Some b => VFloat ((a + b) / 2)
    | _, _ => NaN
    end
  else
    match xs !! (n / 2) with
    | Some a => VFloat a
    | None => NaN
    end.

Definition extremum (pickZ : Z → Z → Z) (pickF : float → float → float)
    (s : Series) : Value :=
  match dtype s with
  | int64 =>
      match present_ints s with
      | [] => NaN
      | z :: zs => VInt (foldl pickZ z zs)
      end
  | _ =>
      match present_floats s with
      | [] => NaN
      | x :: xs => VFloat (foldl pickF x xs)
      end
  end.

Definition fmax (a b : float) : float := if PrimFloat.leb a b then b else a.
Definition fmin (a b : float) : float := if PrimFloat.leb a b then a else b.

Definition max : Series → Value := extremum Z.max fmax.
Definition min : Series → Value := extremum Z.min fmin.

End Reference.

Definition reference_stats : SeriesStats :=
  {| Series_mean := Reference.mean;
     Series_median := Reference.median;
     Series_max := Reference.max;
     Series_min := Reference.min;
     Series_std := Reference.std;
     Series_var := Reference.var |}.

(** ** The frames of the docstrings *)

Definition ints (c : string) (zs : list Z) : Series :=
  {| name := c; dtype := int64; values := VInt <$> zs |}.

(** [pd.DataFrame({"A": [1, 2, 3], "B": [4, 5, 6]})] *)
Definition frame_AB : DataFrame :=
  {| row_labels := [0; 1; 2]%Z;
     cols := [ints "A" [1; 2; 3]%Z; ints "B" [4; 5; 6]%Z] |}.

(** [pd.DataFrame(columns=["First Name", "Last Name", "Age"])] *)
Definition frame_headers : DataFrame :=
  {| row_labels := [];
     cols := (λ c, {| name := c; dtype := object_; values := [] |})
               <$> ["First Name"; "Last Name"; "Age"] |}.

(** [pd.DataFrame({"A": [1.0, nan]})] *)
Definition frame_gap : DataFrame :=
  {| row_labels := [0; 1]%Z;
     cols := [{| name := "A"; dtype := float64; values := [VFloat 1; NaN] |}] |}.

Definition world_of (h : list DataFrame) : World :=
  {| heap := h; fs := ∅; log := [] |}.

(** A world with an empty heap and one file. *)
Definition world_with_file (path : string) (t : DataFrame) : World :=
  {| heap := []; fs := {[ path := Parsed t ]}; log := [] |}.

(** ** Vocabulary of the statements *)


(** The cell of column [c] at position [i]. *)
Definition cell (t : DataFrame) (c : string) (i : nat) : option Value :=
  s ← find_series c t; values s !! i.

(** [v'] is [v], possibly moved from int64 to float64. *)
Definition upcast (v v' : Value) : Prop :=
  v' = v ∨ ∃ z, v = VInt z ∧ v' = VFloat (Z2F z).

(** [r] is the row of [t] at position [k]: it carries the label of that
    row and, for every column in order, the column name with the cell of
    that row. *)
Definition is_row (t : DataFrame) (k : nat) (r : RowSeries) : Prop :=
  row_labels t !! k = Some (label r) ∧
  Forall2 (λ s kv, kv.1 = name s ∧ ∃ v, values s !! k = Some v ∧ upcast v kv.2)
          (cols t) (items r).

(** [v'] holds what [v] holds: the same cell; or a number converted to
    float64; or a boolean as 0 or 1; or the missing marker for a
    missing cell. *)
Definition carried (v v' : Value) : Prop :=
  v' = v
  ∨ (∃ z, v = VInt z ∧ v' = VFloat (Z2F z))
  ∨ (∃ b, v = VBool b ∧ (v' = VInt (Z.b2z b) ∨ v' = VFloat (Z2F (Z.b2z b))))
  ∨ (isna v = true ∧ isna v' = true).

(** [r] is the row-wise concatenation of [t1] and [t2]. *)
Record merged (t1 t2 r : DataFrame) : Prop := {
  merged_len : len r = len t1 + len t2;
  merged_columns : ∀ c, c ∈ columns r ↔ c ∈ columns t1 ∨ c ∈ columns t2;
  merged_wf : wf_frame r;
  merged_labels : row_labels r = seqZ 0 (Z.of_nat (len r));
  merged_first : ∀ c i v, cell t1 c i = Some v →
                   ∃ v', cell r c i = Some v' ∧ carried v v';
  merged_second : ∀ c i v, cell t2 c i = Some v →
                    ∃ v', cell r c (len t1 + i) = Some v' ∧ carried v v';
  merged_fill_first : ∀ c i, c ∈ columns t2 → c ∉ columns t1 → i < len t1 →
                        cell r c i = Some NaN;
  merged_fill_second : ∀ c i, c ∈ columns t1 → c ∉ columns t2 → i < len t2 →
                         cell r c (len t1 + i) = Some NaN
}.

(** Columns that all hold a first cell. *)
Definition all_cons (ss : list Series) : Prop :=
  Forall (λ s, ∃ v vs, values s = v :: vs) ss.

(** The instance the docstrings build: [CsvAnalyser(df=df)] with [df]
    the first object of the heap. *)
Definition analyser0 : CsvAnalyser := {| _df := 0; df := 0; _path := None |}.

(** A record without a missing cell. *)
Definition complete (r : Record_) : bool :=
  forallb (λ kv, negb (isna kv.2)) r.2.

(** A header that holds neither a space nor a letter A-Z. *)
Fixpoint standardised (col : string) : bool :=
  match col with
  | EmptyString => true
  | String c col' =>
      negb (Ascii.eqb c " ")
      && negb ((65 <=? nat_of_ascii c) && (nat_of_ascii c <=? 90))
      && standardised col'
  end.

(** [pd.DataFrame({"A": [1, 1, 2], "B": [4, 4, 6]})] *)
Definition frame_repeat : DataFrame :=
  {| row_labels := [0; 1; 2]%Z;
     cols := [ints "A" [1; 1; 2]%Z; ints "B" [4; 4; 6]%Z] |}.

(** The mask of [dropna] for [n] rows and the columns [ss]. *)
Definition mask_of (n : nat) (ss : list Series) : list bool :=
  foldr (λ s mask, zip_with andb ((λ v, negb (isna v)) <$> values s) mask)
        (replicate n true) ss.

(** * Properties *)

(** ** Stepping through [Py] *)

Lemma bind_deref {A} (l : loc) (t : DataFrame) (k : DataFrame → Py A) (w : World) :
  heap w !! l = Some t → bind (deref l) k w = k t w.
Proof. intros Hl. unfold bind, deref. by rewrite Hl. Qed.

Lemma bind_lift_return {A B} (a : A) (k : A → Py B) (w : World) :
  bind (lift (Return a)) k w = k a w.
Proof. done. Qed.

Lemma bind_lift_raise {A B} (e : Exception) (k : A → Py B) (w : World) :
  bind (lift (Raise e)) k w = Some (Raise e, w).
Proof. done. Qed.

Lemma assign_live (l : loc) (t t' : DataFrame) (w : World) :
  heap w !! l = Some t →
  assign l t' w = Some (Return (), set_heap (<[l := t']> (heap w)) w).
Proof. intros Hl. unfold assign. by rewrite Hl. Qed.

Lemma heap_set_heap (h : list DataFrame) (w : World) : heap (set_heap h w) = h.
Proof. done. Qed.

Lemma set_heap_set_heap (h h' : list DataFrame) (w : World) :
  set_heap h (set_heap h' w) = set_heap h w.
Proof. done. Qed.

(** ** Construction *)

(** C10: when both a frame and a path are given, construction succeeds
    with both references on the given frame; the path plays no part: the
    world, and with it the log of file-system accesses, is left as it
    was, whatever the path and whatever the file system holds. *)
Theorem init_frame_wins (d : loc) (file_path : option string) (w : World) :
  __init__ (Some d) file_path w
  = Some (Return {| _df := d; df := d; _path := None |}, w).
Proof. reflexivity. Qed.

(** C3: with no frame, a path that ends in neither ".csv" nor ".data"
    is answered with the very exception that answers a call with no
    argument at all: [ValueError("Must provide atleast one argument")].
    The two failures cannot be told apart, and the file system is not
    consulted. *)
Theorem init_bad_extension_same_error (file_path : string) (w : World) :
  endswith file_path [".csv"; ".data"] = false →
  __init__ None (Some file_path) w = __init__ None None w ∧
  __init__ None None w
  = Some (Raise (ValueError "Must provide atleast one argument"), w).
Proof. intros Hext. unfold __init__. by rewrite Hext. Qed.

Lemma init_bad_extension_same_error_witness :
  endswith "table.txt" [".csv"; ".data"] = false ∧
  __init__ None (Some "table.txt") (world_of [])
  = __init__ None None (world_of []).
Proof.
  split; [reflexivity |].
  apply (init_bad_extension_same_error "table.txt" (world_of [])).
  reflexivity.
Defined.

(** ** [drop_column] *)

(** C5: whatever list of names is passed, [drop_column] raises
    [TypeError]: the membership test [column not in self.df.columns]
    hashes its key, and a list has no hash.  On the frame
    [{A: [1,2,3], B: [4,5,6]}] the call [drop_column(["A"])] raises,
    although "A" is a column; the same name passed as a string is
    dropped. *)
Theorem drop_column_list_raises :
  (∀ (self : CsvAnalyser) (names : list string) (w : World) (t : DataFrame),
     heap w !! df self = Some t →
     drop_column self (Names names) w
     = Some (Raise (TypeError "unhashable type: 'list'"), w)) ∧
  drop_column analyser0 (Names ["A"]) (world_of [frame_AB])
  = Some (Raise (TypeError "unhashable type: 'list'"), world_of [frame_AB]) ∧
  drop_column analyser0 (Name "A") (world_of [frame_AB])
  = Some (Return 1,
          world_of [frame_AB;
                    {| row_labels := [0; 1; 2]%Z; cols := [ints "B" [4; 5; 6]%Z] |}]).
Proof.
  split; [| split; reflexivity].
  intros self names w t Hl. unfold drop_column.
  by rewrite (bind_deref _ t).
Qed.

(** ** [standardise_headers] *)



Lemma zip_with_rename_fmap (f : string → string) (ss : list Series) :
  zip_with rename (f <$> (name <$> ss)) ss = (λ s, rename (f (name s)) s) <$> ss.
Proof. induction ss as [| s ss IH]; [done |]. cbn. by rewrite IH. Qed.

Lemma set_columns_fmap (f : string → string) (t : DataFrame) :
  set_columns t (f <$> columns t)
  = Return {| row_labels := row_labels t;
              cols := (λ s, rename (f (name s)) s) <$> cols t |}.
Proof.
  unfold set_columns, columns.
  rewrite bool_decide_eq_true_2 by by rewrite !length_fmap.
  by rewrite zip_with_rename_fmap.
Qed.

(** The frame [standardise_headers] leaves behind [self.df]. *)
Lemma standardise_headers_run (self : CsvAnalyser) (w : World) (t : DataFrame) :
  heap w !! df self = Some t →
  standardise_headers self w
  = Some (Return (),
          set_heap (<[df self :=
                        {| row_labels := row_labels t;
                           cols := (λ s, rename (standardise_header (name s)) s)
                                     <$> cols t |}]> (heap w)) w).
Proof.
  intros Hl. unfold standardise_headers.
  rewrite (bind_deref _ t) by done.
  rewrite set_columns_fmap, bind_lift_return.
  by apply assign_live with t.
Qed.




Lemma frame_headers_ascii :
  Forall (λ col, is_ascii col = true) (columns frame_headers).
Proof. by repeat constructor. Qed.


(** ** The two references

    An in-place mutation goes through [self.df] and changes one heap
    object; every other object is left alone.  So [self._df] keeps its
    frame exactly as long as it is a different object. *)

Lemma drop_missing_values_run (self : CsvAnalyser) (w : World) (t : DataFrame) :
  heap w !! df self = Some t →
  drop_missing_values self w
  = Some (Return (df self), set_heap (<[df self := dropna t]> (heap w)) w).
Proof.
  intros Hl. unfold drop_missing_values.
  rewrite (bind_deref _ t) by done.
  unfold bind. by rewrite (assign_live _ t).
Qed.

(** A call other than [change_to_init_state] returns, hands on the same
    instance, keeps [self.df] alive and leaves every other object. *)
Lemma mutating_call_run (c : Call) (self : CsvAnalyser) (w : World) (t : DataFrame) :
  c ≠ CallChangeToInitState →
  heap w !! df self = Some t →
  ∃ w' t',
    call c self w = Some (Return self, w') ∧
    heap w' !! df self = Some t' ∧
    ∀ l, l ≠ df self → heap w' !! l = heap w !! l.
Proof.
  intros Hc Hl.
  assert (Hlt : df self < length (heap w)) by (apply lookup_lt_is_Some; eauto).
  destruct c; [| | done]; unfold call, bind.
  - rewrite (standardise_headers_run self w t) by done.
    eexists _, _. split; [done |]. rewrite heap_set_heap. split.
    + by apply list_lookup_insert_eq.
    + intros l Hne. by apply list_lookup_insert_ne.
  - rewrite (drop_missing_values_run self w t) by done.
    eexists _, _. split; [done |]. rewrite heap_set_heap. split.
    + by apply list_lookup_insert_eq.
    + intros l Hne. by apply list_lookup_insert_ne.
Qed.

Lemma mutating_calls_run (cs : list Call) (self : CsvAnalyser) (w : World)
    (t t0 : DataFrame) :
  CallChangeToInitState ∉ cs →
  _df self ≠ df self →
  heap w !! df self = Some t →
  heap w !! _df self = Some t0 →
  ∃ w', calls cs self w = Some (Return self, w') ∧ heap w' !! _df self = Some t0.
Proof.
  revert w t. induction cs as [| c cs IH]; intros w t Hcs Hne Hl Hl0.
  - by exists w.
  - apply not_elem_of_cons in Hcs as [Hc Hcs].
    destruct (mutating_call_run c self w t) as (w1 & t1 & Hrun & Hl1 & Hframe);
      [done.. |].
    destruct (IH w1 t1) as (w' & Hrun' & Hl'); [done.. | by rewrite Hframe |].
    exists w'. split; [| done].
    cbn [calls]. unfold bind. by rewrite Hrun.
Qed.

(** Where the code does keep the two frames apart: an instance built
    from a file holds two separately parsed frames, and every sequence
    of [standardise_headers] and [drop_missing_values] calls on it
    returns and leaves the frame of [self._df] equal to the frame
    loaded at construction. *)
Lemma original_kept_until_reset (file_path : string) (w : World) (t : DataFrame)
    (cs : list Call) :
  fs w !! file_path = Some (Parsed t) →
  endswith file_path [".csv"; ".data"] = true →
  CallChangeToInitState ∉ cs →
  ∃ (a : CsvAnalyser) (w' : World),
    (a ←' __init__ None (Some file_path); calls cs a) w = Some (Return a, w') ∧
    _df a ≠ df a ∧
    heap w' !! _df a = Some t.
Proof.
  intros Hfile Hext Hcs.
  set (a := {| _df := length (heap w); df := S (length (heap w));
               _path := Some file_path |}).
  set (w0 := {| heap := heap w ++ [t; t]; fs := fs w;
                log := log w ++ [PathExists file_path; ReadCsv file_path;
                                 ReadCsv file_path] |}).
  assert (Hinit : __init__ None (Some file_path) w = Some (Return a, w0)).
  { unfold __init__. rewrite Hext.
    unfold bind at 1, os_path_exists. rewrite Hfile.
    rewrite bool_decide_eq_true_2 by by eexists. cbn [negb].
    unfold bind at 1, read_csv at 1. cbn [fs add_log]. rewrite Hfile.
    unfold alloc at 1. cbn [heap set_heap add_log].
    unfold bind, read_csv. cbn [fs add_log set_heap]. rewrite Hfile.
    unfold alloc, ret. cbn [heap set_heap add_log log fs].
    rewrite length_app, Nat.add_1_r. subst a w0.
    unfold set_heap, add_log. cbn [heap fs log].
    by rewrite <- !app_assoc. }
  destruct (mutating_calls_run cs a w0 t t) as (w' & Hrun & Hl); [done | ..].
  - cbn. lia.
  - cbn [df a heap w0].
    rewrite (lookup_app_r _ _ (S (length (heap w)))) by lia.
    by replace (S (length (heap w)) - length (heap w)) with 1 by lia.
  - cbn [_df a heap w0]. by apply list_lookup_middle.
  - exists a, w'. unfold bind. rewrite Hinit. split; [done |].
    split; [cbn; lia | done].
Qed.

Lemma original_kept_until_reset_witness :
  fs (world_with_file "t.csv" frame_gap) !! "t.csv" = Some (Parsed frame_gap) ∧
  endswith "t.csv" [".csv"; ".data"] = true ∧
  (CallChangeToInitState ∉ [CallDropMissingValues; CallStandardiseHeaders]) ∧
  ∃ (a : CsvAnalyser) (w' : World),
    (a ←' __init__ None (Some "t.csv");
     calls [CallDropMissingValues; CallStandardiseHeaders] a)
      (world_with_file "t.csv" frame_gap)
    = Some (Return a, w') ∧
    _df a ≠ df a ∧
    heap w' !! _df a = Some frame_gap.
Proof.
  assert (Hcs : CallChangeToInitState
                ∉ [CallDropMissingValues; CallStandardiseHeaders]) by compute_done.
  split; [reflexivity |]. split; [reflexivity |]. split; [exact Hcs |].
  exact (original_kept_until_reset "t.csv" (world_with_file "t.csv" frame_gap)
           frame_gap [CallDropMissingValues; CallStandardiseHeaders]
           eq_refl eq_refl Hcs).
Defined.

(** C1: the frame of [self._df] does not stay equal to the frame given
    or loaded at construction.  Built from a frame, the instance holds
    that one object under both references, so [standardise_headers]
    renames the columns of the frame of [self._df] and
    [drop_missing_values] removes its incomplete row.  Built from a
    file, the instance holds two objects until [change_to_init_state]
    makes [self.df] the object of [self._df]; a [drop_missing_values]
    after that removes the row from the frame of [self._df] as well. *)
Theorem original_is_mutated :
  fst <$> (a ←' __init__ (Some 0) None; ret (bool_decide (_df a = df a)))
            (world_of [frame_headers])
  = Some (Return true) ∧
  fst <$> (a ←' __init__ (Some 0) None;
           a ←' call CallStandardiseHeaders a;
           deref (_df a)) (world_of [frame_headers])
  = Some (Return {| row_labels := [];
                    cols := (λ c, {| name := c; dtype := object_; values := [] |})
                              <$> ["first_name"; "last_name"; "age"] |}) ∧
  fst <$> (a ←' __init__ (Some 0) None;
           a ←' call CallDropMissingValues a;
           deref (_df a)) (world_of [frame_gap])
  = Some (Return {| row_labels := [0]%Z;
                    cols := [{| name := "A"; dtype := float64;
                                values := [VFloat 1] |}] |}) ∧
  fst <$> (a ←' __init__ None (Some "t.csv");
           a ←' calls [CallChangeToInitState; CallDropMissingValues] a;
           deref (_df a)) (world_with_file "t.csv" frame_gap)
  = Some (Return {| row_labels := [0]%Z;
                    cols := [{| name := "A"; dtype := float64;
                                values := [VFloat 1] |}] |}) ∧
  columns frame_headers = ["First Name"; "Last Name"; "Age"] ∧
  len frame_gap = 2.
Proof. repeat split; vm_compute; reflexivity. Qed.

(** C2: after [standardise_headers] on an instance built from a frame,
    [change_to_init_state] leaves [self.df] on a frame with the new
    headers, not on the frame as it was at construction; after
    [drop_missing_values] it leaves the frame without the dropped row.
    On an instance built from a file the first reset makes [self.df]
    the object of [self._df], so a mutation after it is not undone by
    the next reset. *)
Theorem reset_does_not_restore :
  fst <$> (a ←' __init__ (Some 0) None;
           a ←' calls [CallStandardiseHeaders; CallChangeToInitState] a;
           deref (df a)) (world_of [frame_headers])
  = Some (Return {| row_labels := [];
                    cols := (λ c, {| name := c; dtype := object_; values := [] |})
                              <$> ["first_name"; "last_name"; "age"] |}) ∧
  fst <$> (a ←' __init__ (Some 0) None;
           a ←' calls [CallDropMissingValues; CallChangeToInitState] a;
           deref (df a)) (world_of [frame_gap])
  = Some (Return {| row_labels := [0]%Z;
                    cols := [{| name := "A"; dtype := float64;
                                values := [VFloat 1] |}] |}) ∧
  fst <$> (a ←' __init__ None (Some "t.csv");
           a ←' calls [CallChangeToInitState; CallDropMissingValues;
                       CallChangeToInitState] a;
           deref (df a)) (world_with_file "t.csv" frame_gap)
  = Some (Return {| row_labels := [0]%Z;
                    cols := [{| name := "A"; dtype := float64;
                                values := [VFloat 1] |}] |}) ∧
  columns frame_headers = ["First Name"; "Last Name"; "Age"] ∧
  len frame_gap = 2.
Proof. repeat split; vm_compute; reflexivity. Qed.

(** ** [get_row] *)

Lemma geb_false (a b : Z) : (a < b)%Z → (a >=? b)%Z = false.
Proof. intros. rewrite Z.geb_leb. by apply Z.leb_gt. Qed.

Lemma geb_true (a b : Z) : (b ≤ a)%Z → (a >=? b)%Z = true.
Proof. intros. rewrite Z.geb_leb. by apply Z.leb_le. Qed.

Lemma ltb_false (a b : Z) : (b ≤ a)%Z → (a <? b)%Z = false.
Proof. apply Z.ltb_ge. Qed.

Lemma ltb_true (a b : Z) : (a < b)%Z → (a <? b)%Z = true.
Proof. apply Z.ltb_lt. Qed.

Lemma astype_upcast (d : Dtype) (v : Value) : upcast v (astype d v).
Proof. destruct d, v; try (by left). right. by eexists. Qed.

(** Inside the frame, [iloc] returns the row at the position. *)
Lemma iloc_position (t : DataFrame) (i : Z) (w : World) :
  wf_frame t →
  (- Z.of_nat (len t) ≤ i < Z.of_nat (len t))%Z →
  ∃ r, iloc t i w = Some (Return r, w) ∧
       is_row t (Z.to_nat (if (i <? 0)%Z then i + Z.of_nat (len t) else i)%Z) r.
Proof.
  intros [_ Hlen] Hi. unfold iloc.
  rewrite geb_false, ltb_false by lia. cbn [orb].
  set (k := Z.to_nat _).
  assert (Hk : k < len t).
  { subst k. destruct (Z.ltb_spec i 0); lia. }
  destruct (lookup_lt_is_Some_2 (row_labels t) k Hk) as [l Hl]. rewrite Hl.
  set (f := λ s : Series, _).
  destruct (mapM_is_Some_2 f (cols t)) as [kvs Hkvs].
  { eapply Forall_impl; [exact Hlen |]. intros s Hs. unfold f, compose.
    cbn beta in Hs.
    destruct (lookup_lt_is_Some_2 (values s) k) as [v Hv]; [lia |].
    rewrite Hv. by eexists. }
  rewrite Hkvs. eexists. split; [reflexivity |].
  split; [done |]. cbn [items].
  apply mapM_Some_1 in Hkvs.
  eapply Forall2_impl; [exact Hkvs |]. intros s kv. unfold f.
  destruct (values s !! k) as [v |]; [| done]. cbn.
  intros [= <-]. split; [done |]. exists v. split; [done |]. apply astype_upcast.
Qed.

(** C4, as the code has it: [get_row] raises [IndexError] exactly when
    the index is at or beyond the row count or below minus the row
    count.  An index in [0, row_count) returns the row at that
    position; an index in [-row_count, 0) returns the row at position
    [row_count + index], counted from the end.  Every returned row
    gives, column by column, the name and the cell (an integer possibly
    as the float of the same value).  In all cases the world is left as
    it was. *)
Theorem get_row_bounds (self : CsvAnalyser) (index : Z) (w : World) (t : DataFrame) :
  heap w !! df self = Some t →
  wf_frame t →
  ((Z.of_nat (len t) ≤ index ∨ index < - Z.of_nat (len t))%Z →
   ∃ msg, get_row self index w = Some (Raise (IndexError msg), w)) ∧
  ((0 ≤ index < Z.of_nat (len t))%Z →
   ∃ r, get_row self index w = Some (Return r, w) ∧ is_row t (Z.to_nat index) r) ∧
  ((- Z.of_nat (len t) ≤ index < 0)%Z →
   ∃ r, get_row self index w = Some (Return r, w) ∧
        is_row t (len t - Z.to_nat (- index)) r).
Proof.
  intros Hl Hwf. unfold get_row. rewrite (bind_deref _ t) by done.
  split; [| split].
  - intros [Hhi | Hlo].
    + rewrite geb_true by done. by eexists.
    + rewrite geb_false by lia. unfold iloc.
      rewrite geb_false, ltb_true by lia. by eexists.
  - intros Hi. rewrite geb_false by lia.
    destruct (iloc_position t index w Hwf) as (r & Hr & Hrow); [lia |].
    exists r. split; [done |].
    by rewrite ltb_false in Hrow by lia.
  - intros Hi. rewrite geb_false by lia.
    destruct (iloc_position t index w Hwf) as (r & Hr & Hrow); [lia |].
    exists r. split; [done |].
    rewrite ltb_true in Hrow by lia.
    by replace (len t - Z.to_nat (- index)) with (Z.to_nat (index + Z.of_nat (len t)))
      by lia.
Qed.

Lemma frame_AB_wf : wf_frame frame_AB.
Proof. split; [compute_done | by repeat constructor]. Qed.

Lemma get_row_bounds_witness :
  heap (world_of [frame_AB]) !! df analyser0 = Some frame_AB ∧
  wf_frame frame_AB ∧
  ∃ msg, get_row analyser0 3 (world_of [frame_AB])
         = Some (Raise (IndexError msg), world_of [frame_AB]).
Proof.
  split; [reflexivity |]. split; [exact frame_AB_wf |].
  apply (get_row_bounds analyser0 3 (world_of [frame_AB]) frame_AB eq_refl frame_AB_wf).
  left. cbn. lia.
Defined.

(** C4, as stated, fails: index -1 is outside [0, 3), yet [get_row(-1)]
    on the three-row frame [{A: [1,2,3], B: [4,5,6]}] raises nothing and
    returns the last row. *)
Lemma get_row_negative_index_returns :
  (-1 < 0)%Z ∧
  get_row analyser0 (-1) (world_of [frame_AB])
  = Some (Return {| label := 2; items := [("A", VInt 3); ("B", VInt 6)] |},
          world_of [frame_AB]).
Proof. split; [lia | reflexivity]. Qed.

(** ** [get_trends] *)

Lemma filter_name_absent (c : string) (ss : list Series) :
  c ∉ name <$> ss → filter (λ s, name s = c) ss = [].
Proof.
  induction ss as [| a ss IH]; [done |].
  rewrite fmap_cons, not_elem_of_cons. intros [Hne Hnot].
  rewrite filter_cons_False by done. by apply IH.
Qed.

Lemma filter_name_unique (ss : list Series) (s : Series) :
  NoDup (name <$> ss) → s ∈ ss → filter (λ s', name s' = name s) ss = [s].
Proof.
  induction ss as [| a ss IH]; intros Hnd Hin; [by apply elem_of_nil in Hin |].
  rewrite fmap_cons in Hnd. apply NoDup_cons in Hnd as [Hnot Hnd].
  apply elem_of_cons in Hin as [-> | Hin].
  - rewrite filter_cons_True by done. by rewrite filter_name_absent.
  - rewrite filter_cons_False; [by apply IH |].
    intros Heq. apply Hnot. rewrite Heq. by apply list_elem_of_fmap_2.
Qed.

Lemma getitem_unique (t : DataFrame) (s : Series) (w : World) :
  NoDup (columns t) → s ∈ cols t → getitem t (name s) w = Some (Return s, w).
Proof. intros Hnd Hin. unfold getitem. by rewrite filter_name_unique. Qed.

Section Trends.
Context (stats : SeriesStats).
Context (self : CsvAnalyser) (w : World) (t : DataFrame).
Hypothesis live : heap w !! df self = Some t.
Hypothesis unique : NoDup (columns t).

Lemma column_stat_run (stat : Series → Value) (s : Series) :
  s ∈ cols t → column_stat self stat (name s) w = Some (Return (stat s), w).
Proof.
  intros Hin. unfold column_stat. rewrite (bind_deref _ t) by done.
  unfold bind. by rewrite getitem_unique.
Qed.

Lemma dict_comp_run (stat : Series → Value) (ss : list Series)
    (acc : gmap string Value) :
  ss ⊆ cols t →
  dict_comp (name <$> ss) (column_stat self stat) acc w
  = Some (Return (foldl (λ m s, <[name s := stat s]> m) acc ss), w).
Proof.
  revert acc. induction ss as [| s ss IH]; intros acc Hsub; [done |].
  cbn [fmap list_fmap dict_comp foldl]. unfold bind.
  rewrite column_stat_run by (apply Hsub; left).
  apply IH. intros x Hx. apply Hsub. by right.
Qed.

Lemma supported_metric_run (metric : string) (stat : Series → Value) :
  metrics self !! metric = Some (column_stat self stat) →
  get_trends self metric w
  = Some (Return (foldl (λ m s, <[name s := stat s]> m) ∅
                        (filter (λ s, is_number (dtype s)) (cols t))), w).
Proof.
  intros Hm. unfold get_trends. rewrite (bind_deref _ t) by done.
  rewrite Hm. apply dict_comp_run.
  intros s Hs. by apply list_elem_of_filter in Hs as [_ Hs].
Qed.
End Trends.

Lemma foldl_insert_None (stat : Series → Value) (ss : list Series)
    (acc : gmap string Value) (c : string) :
  foldl (λ m s, <[name s := stat s]> m) acc ss !! c = None
  ↔ acc !! c = None ∧ c ∉ name <$> ss.
Proof.
  revert acc. induction ss as [| s ss IH]; intros acc; cbn [foldl].
  - rewrite fmap_nil. split; [intros ?; split; [done | apply not_elem_of_nil] | tauto].
  - rewrite IH, fmap_cons, not_elem_of_cons, lookup_insert_None.
    intuition congruence.
Qed.

Lemma foldl_insert_Some (stat : Series → Value) (ss : list Series)
    (acc : gmap string Value) (s : Series) :
  NoDup (name <$> ss) → s ∈ ss →
  foldl (λ m s, <[name s := stat s]> m) acc ss !! name s = Some (stat s).
Proof.
  revert acc. induction ss as [| a ss IH]; intros acc Hnd Hin;
    [by apply elem_of_nil in Hin |].
  rewrite fmap_cons in Hnd. apply NoDup_cons in Hnd as [Hnot Hnd].
  cbn [foldl]. apply elem_of_cons in Hin as [-> | Hin]; [| by apply IH].
  destruct (foldl (λ m s, <[name s := stat s]> m) (<[name a := stat a]> acc) ss
              !! name a) as [v |] eqn:Hv.
  - clear IH Hnd. revert acc Hv. induction ss as [| b ss IH]; intros acc Hv.
    + cbn in Hv. by rewrite lookup_insert_eq in Hv.
    + rewrite fmap_cons, not_elem_of_cons in Hnot. destruct Hnot as [Hne Hnot].
      cbn [foldl] in Hv. rewrite insert_insert_ne in Hv by done.
      by apply (IH Hnot (<[name b := stat b]> acc)).
  - apply foldl_insert_None in Hv as [Hv _]. by rewrite lookup_insert_eq in Hv.
Qed.

Lemma NoDup_names_filter (P : Series → Prop) `{∀ s, Decision (P s)}
    (ss : list Series) :
  NoDup (name <$> ss) → NoDup (name <$> filter P ss).
Proof.
  intros Hnd. eapply sublist_NoDup; [exact Hnd |].
  apply fmap_sublist, sublist_filter.
Qed.

Lemma unsupported_metric `{SeriesStats} (self : CsvAnalyser) (metric : string) :
  metric ∉ ["mean"; "median"; "max"; "min"; "std"; "var"] →
  metrics self !! metric = None.
Proof. intros Hnot. by apply not_elem_of_list_to_map_1. Qed.

(** C6: on a frame with unique column names, [get_trends] raises
    [ValueError("Unsupported metric: ...")] for every metric other than
    the six names, and for each of the six names returns a dict whose
    keys are exactly the names of the int64 and float64 columns and
    whose value under each key is that aggregation of the column; the
    frame is not touched.  With the aggregations evaluated from left to
    right, [get_trends("mean")] on [{A: [1,2,3], B: [4,5,6]}] is
    [{A: 2.0, B: 5.0}]. *)
Theorem get_trends_spec :
  (∀ (stats : SeriesStats) (self : CsvAnalyser) (w : World) (t : DataFrame),
     heap w !! df self = Some t →
     NoDup (columns t) →
     (∀ metric,
        metric ∉ ["mean"; "median"; "max"; "min"; "std"; "var"] →
        get_trends self metric w
        = Some (Raise (ValueError ("Unsupported metric: " +:+ metric)), w)) ∧
     (∀ metric stat,
        (metric, stat) ∈ [("mean", Series_mean); ("median", Series_median);
                          ("max", Series_max); ("min", Series_min);
                          ("std", Series_std); ("var", Series_var)] →
        ∃ m : gmap string Value,
          get_trends self metric w = Some (Return m, w) ∧
          (∀ c, c ∈ dom m ↔
                ∃ s, s ∈ cols t ∧ name s = c ∧ is_number (dtype s) = true) ∧
          (∀ s, s ∈ cols t → is_number (dtype s) = true →
                m !! name s = Some (stat s)))) ∧
  @get_trends reference_stats analyser0 "mean" (world_of [frame_AB])
  = Some (Return {[ "A" := VFloat 2; "B" := VFloat 5 ]}, world_of [frame_AB]).
Proof.
  split; [| vm_compute; reflexivity].
  intros stats self w t Hl Hnd. split.
  - intros metric Hnot. unfold get_trends. rewrite (bind_deref _ t) by done.
    by rewrite unsupported_metric.
  - intros metric stat Hin.
    exists (foldl (λ m s, <[name s := stat s]> m) ∅
                  (filter (λ s, is_number (dtype s)) (cols t))).
    split; [| split].
    + repeat (apply elem_of_cons in Hin as [[= -> ->] | Hin];
              [by apply (supported_metric_run stats self w t) |]).
      by apply elem_of_nil in Hin.
    + intros c. rewrite elem_of_dom, <- not_eq_None_Some, foldl_insert_None.
      rewrite lookup_empty. split.
      * intros Hc.
        destruct (decide (c ∈ name <$> filter (λ s, is_number (dtype s)) (cols t)))
          as [Hyes | Hno]; [| destruct Hc; by split].
        apply list_elem_of_fmap in Hyes as (s & -> & Hs).
        apply list_elem_of_filter in Hs as [Hnum Hs].
        exists s. repeat split; [done.. | by apply Is_true_eq_true].
      * intros (s & Hs & <- & Hnum) [_ Hno]. apply Hno.
        apply list_elem_of_fmap_2, list_elem_of_filter. split; [| done].
        by apply Is_true_eq_left.
    + intros s Hs Hnum. apply foldl_insert_Some.
      * by apply NoDup_names_filter.
      * apply list_elem_of_filter. split; [by apply Is_true_eq_left | done].
Qed.

Lemma get_trends_spec_witness :
  heap (world_of [frame_AB]) !! df analyser0 = Some frame_AB ∧
  NoDup (columns frame_AB) ∧
  @get_trends reference_stats analyser0 "bogus" (world_of [frame_AB])
  = Some (Raise (ValueError "Unsupported metric: bogus"), world_of [frame_AB]).
Proof.
  split; [reflexivity |]. split; [exact (proj1 frame_AB_wf) |].
  refine (proj1 (proj1 get_trends_spec reference_stats analyser0
                   (world_of [frame_AB]) frame_AB eq_refl (proj1 frame_AB_wf))
                "bogus" _).
  compute_done.
Defined.

(** ** [filter_rows] *)

Lemma select_fmap_filter {A} (P : A → bool) (l : list A) :
  select (P <$> l) l = filter (λ x, P x) l.
Proof.
  induction l as [| x l IH]; [done |].
  cbn [fmap list_fmap select]. rewrite IH. destruct (P x) eqn:HP.
  - rewrite filter_cons_True; [done | by apply Is_true_eq_left].
  - rewrite filter_cons_False; [done |]. intros Hx. rewrite HP in Hx. destruct Hx.
Qed.


Lemma all_cons_of_length (n : nat) (ss : list Series) :
  Forall (λ s, length (values s) = S n) ss →
  all_cons ss ∧ Forall (λ s, length (values s) = n) (behead <$> ss).
Proof.
  intros Hlen. split.
  - eapply Forall_impl; [exact Hlen |]. intros s Hs. cbn beta in Hs.
    destruct (values s) as [| v vs]; [done |]. by exists v, vs.
  - apply Forall_fmap. eapply Forall_impl; [exact Hlen |]. intros s Hs.
    cbn beta in Hs. unfold compose, behead. cbn [values].
    destruct (values s); [done |]. cbn in *. lia.
Qed.

Lemma length_records_from (labels : list Z) (ss : list Series) :
  length (records_from labels ss) = length labels.
Proof.
  revert ss. induction labels as [| i labels IH]; intros ss; [done |].
  cbn. by rewrite IH.
Qed.

Lemma records_from_select (mask : list bool) (labels : list Z) (ss : list Series) :
  length mask = length labels →
  Forall (λ s, length (values s) = length labels) ss →
  records_from (select mask labels) (select_series mask <$> ss)
  = select mask (records_from labels ss).
Proof.
  revert mask ss. induction labels as [| i labels IH]; intros mask ss Hmask Hlen.
  - by destruct mask.
  - destruct mask as [| b mask]; [done |]. injection Hmask as Hmask.
    destruct (all_cons_of_length _ _ Hlen) as [Hcons Hlen'].
    assert (Hstep : behead <$> (select_series (true :: mask) <$> ss)
                    = select_series mask <$> (behead <$> ss)).
    { rewrite <- !list_fmap_compose. apply Forall_fmap_ext.
      eapply Forall_impl; [exact Hcons |]. intros s (v & vs & Hs).
      unfold compose, behead, select_series. cbn [name dtype values].
      by rewrite Hs. }
    assert (Hskip : select_series (false :: mask) <$> ss
                    = select_series mask <$> (behead <$> ss)).
    { rewrite <- list_fmap_compose. apply Forall_fmap_ext.
      eapply Forall_impl; [exact Hcons |]. intros s (v & vs & Hs).
      unfold compose, behead, select_series. cbn [name dtype values].
      by rewrite Hs. }
    destruct b; cbn [select records_from].
    + rewrite Hstep, IH by done. f_equal. f_equal.
      clear -Hcons. induction Hcons as [| s ss (v & vs & Hs) _ IHss]; [done |].
      cbn [fmap list_fmap omap list_omap select_series values name].
      rewrite Hs. cbn. by rewrite IHss.
    + rewrite Hskip. by apply IH.
Qed.





(** The docstring of [filter_rows]: the row labelled 1 is returned. *)
Example filter_rows_docstring :
  filter_rows analyser0 "A" (VInt 2) (world_of [frame_AB])
  = Some (Return 1,
          world_of [frame_AB;
                    {| row_labels := [1]%Z;
                       cols := [ints "A" [2]%Z; ints "B" [5]%Z] |}]).
Proof. reflexivity. Qed.

(** ** [merge_dataframes] and [merge_csv] *)

Lemma find_series_Some (c : string) (t : DataFrame) (s : Series) :
  find_series c t = Some s → s ∈ cols t ∧ name s = c.
Proof.
  unfold find_series. intros Hfind. apply find_some in Hfind as [Hin Heq].
  split; [by apply list_elem_of_In | by apply String.eqb_eq].
Qed.

Lemma find_series_None (c : string) (t : DataFrame) :
  c ∉ columns t → find_series c t = None.
Proof.
  intros Hnot. destruct (find_series c t) as [s |] eqn:Hfind; [| done].
  apply find_series_Some in Hfind as [Hin <-].
  destruct Hnot. by apply list_elem_of_fmap_2.
Qed.

Lemma find_series_elem_of (c : string) (t : DataFrame) :
  c ∈ columns t → ∃ s, find_series c t = Some s.
Proof.
  unfold columns, find_series. induction (cols t) as [| a ss IH]; intros Hin.
  - by apply elem_of_nil in Hin.
  - cbn [List.find]. destruct (String.eqb_spec (name a) c) as [Heq | Hne];
      [by eexists |].
    apply IH. rewrite fmap_cons in Hin. by apply elem_of_cons in Hin as [-> | Hin].
Qed.

Lemma find_fmap_named (f : string → Series) (c : string) (names : list string) :
  (∀ c', name (f c') = c') → c ∈ names →
  List.find (λ s, String.eqb (name s) c) (f <$> names) = Some (f c).
Proof.
  intros Hname. induction names as [| a names IH]; intros Hin.
  - by apply elem_of_nil in Hin.
  - cbn [fmap list_fmap List.find]. rewrite Hname.
    destruct (String.eqb_spec a c) as [-> | Hne]; [done |].
    apply IH. by apply elem_of_cons in Hin as [-> | Hin].
Qed.

Lemma elem_of_union_columns (a b : list string) (c : string) :
  c ∈ union_columns a b ↔ c ∈ a ∨ c ∈ b.
Proof.
  unfold union_columns. rewrite elem_of_app, list_elem_of_filter.
  destruct (decide (c ∈ a)); tauto.
Qed.

Lemma NoDup_union_columns (a b : list string) :
  NoDup a → NoDup b → NoDup (union_columns a b).
Proof.
  intros Ha Hb. apply NoDup_app. split; [done |]. split.
  - intros c Hc Hc'. by apply list_elem_of_filter in Hc' as [Hnot _].
  - by apply NoDup_filter.
Qed.

Lemma np_cast_NaN (d : Dtype) : np_cast d NaN = NaN.
Proof. by destruct d. Qed.

Lemma np_cast_carried (d : Dtype) (v : Value) : carried v (np_cast d v).
Proof.
  destruct d, v; try (by left); right.
  - right. left. eexists. split; [done |]. by left.
  - left. by eexists.
  - right. left. eexists. split; [done |]. by right.
Qed.

Lemma length_column_part (t : DataFrame) (c : string) :
  wf_frame t → length (column_part t c).2 = len t.
Proof.
  intros [_ Hlen]. unfold column_part.
  destruct (find_series c t) as [s |] eqn:Hfind; cbn [snd].
  - apply find_series_Some in Hfind as [Hin _].
    rewrite Forall_forall in Hlen. by apply Hlen.
  - apply length_replicate.
Qed.

Lemma column_part_Some (t : DataFrame) (c : string) (i : nat) (v : Value) :
  cell t c i = Some v → (column_part t c).2 !! i = Some v.
Proof.
  unfold cell, column_part. by destruct (find_series c t) as [s |].
Qed.

Lemma column_part_None (t : DataFrame) (c : string) (i : nat) :
  c ∉ columns t → i < len t → (column_part t c).2 !! i = Some NaN.
Proof.
  intros Hnot Hi. unfold column_part. rewrite find_series_None by done.
  by apply lookup_replicate_2.
Qed.

Section Concat.
Context (t1 t2 : DataFrame).
Hypothesis wf1 : wf_frame t1.
Hypothesis wf2 : wf_frame t2.

Lemma concat_unique :
  concat t1 t2
  = Return (if is_empty_frame t2 && negb (is_empty_frame t1) then reset_index t1
            else if is_empty_frame t1 && negb (is_empty_frame t2) then reset_index t2
            else outer_join t1 t2).
Proof.
  unfold concat. destruct wf1 as [Hnd1 _], wf2 as [Hnd2 _].
  rewrite !bool_decide_eq_true_2 by done. cbn [andb].
  by destruct (is_empty_frame t2), (is_empty_frame t1).
Qed.

Lemma columns_concat : columns (outer_join t1 t2) = union_columns (columns t1) (columns t2).
Proof.
  unfold columns at 1. cbn [cols outer_join]. rewrite <- list_fmap_compose.
  apply list_fmap_id.
Qed.

Lemma len_concat : len (outer_join t1 t2) = len t1 + len t2.
Proof. unfold len at 1. cbn [row_labels outer_join]. rewrite length_seqZ. lia. Qed.

Lemma cell_concat (c : string) (i : nat) :
  c ∈ columns t1 ∨ c ∈ columns t2 →
  ∃ d, cell (outer_join t1 t2) c i = np_cast d <$> ((column_part t1 c).2 ++ (column_part t2 c).2) !! i.
Proof.
  intros Hc. unfold cell, find_series. cbn [cols outer_join].
  rewrite find_fmap_named; [| done | by apply elem_of_union_columns].
  cbn [mbind option_bind concat_column values]. eexists.
  by rewrite list_lookup_fmap.
Qed.

Lemma outer_join_merged : merged t1 t2 (outer_join t1 t2).
Proof.
  split.
  - apply len_concat.
  - intros c. rewrite columns_concat. apply elem_of_union_columns.
  - split.
    + rewrite columns_concat.
      apply NoDup_union_columns; [apply wf1 | apply wf2].
    + rewrite len_concat. apply Forall_fmap, Forall_forall. intros c _.
      unfold compose. cbn [concat_column values].
      by rewrite length_fmap, length_app, !length_column_part.
  - by rewrite len_concat.
  - intros c i v Hcell.
    assert (Hc : c ∈ columns t1).
    { unfold cell in Hcell. destruct (find_series c t1) as [s |] eqn:Hs; [| done].
      apply find_series_Some in Hs as [Hin <-]. by apply list_elem_of_fmap_2. }
    destruct (cell_concat c i) as [d ->]; [by left |].
    exists (np_cast d v). split; [| apply np_cast_carried].
    by rewrite (lookup_app_l_Some _ _ _ v) by by apply column_part_Some.
  - intros c i v Hcell.
    assert (Hc : c ∈ columns t2).
    { unfold cell in Hcell. destruct (find_series c t2) as [s |] eqn:Hs; [| done].
      apply find_series_Some in Hs as [Hin <-]. by apply list_elem_of_fmap_2. }
    destruct (cell_concat c (len t1 + i)) as [d ->]; [by right |].
    exists (np_cast d v). split; [| apply np_cast_carried].
    rewrite lookup_app_r by (rewrite length_column_part by done; lia).
    rewrite length_column_part by done.
    replace (len t1 + i - len t1) with i by lia.
    by rewrite (column_part_Some _ _ _ v).
  - intros c i Hc2 Hc1 Hi.
    destruct (cell_concat c i) as [d ->]; [by right |].
    rewrite lookup_app_l by (rewrite length_column_part by done; lia).
    rewrite column_part_None by done. cbn. by rewrite np_cast_NaN.
  - intros c i Hc1 Hc2 Hi.
    destruct (cell_concat c (len t1 + i)) as [d ->]; [by left |].
    rewrite lookup_app_r by (rewrite length_column_part by done; lia).
    rewrite length_column_part by done.
    replace (len t1 + i - len t1) with i by lia.
    rewrite column_part_None by done. cbn. by rewrite np_cast_NaN.
Qed.

Lemma reset_index_merged_l :
  cols t2 = [] → row_labels t2 = [] → merged t1 t2 (reset_index t1).
Proof.
  intros Hcols Hlabels.
  assert (Hlen : len (reset_index t1) = len t1).
  { unfold len at 1. cbn [row_labels reset_index]. rewrite length_seqZ. lia. }
  assert (Hlen2 : len t2 = 0) by (unfold len; by rewrite Hlabels).
  assert (Hc2 : columns t2 = []) by (unfold columns; by rewrite Hcols).
  split.
  - rewrite Hlen, Hlen2. lia.
  - intros c. rewrite Hc2. unfold columns. cbn [cols reset_index].
    split; [by left | intros [? | []%elem_of_nil]; done].
  - split; [apply wf1 |]. rewrite Hlen. apply wf1.
  - by rewrite Hlen.
  - intros c i v Hcell. exists v. split; [done | by left].
  - intros c i v Hcell. unfold cell, find_series in Hcell. by rewrite Hcols in Hcell.
  - intros c i Hin. rewrite Hc2 in Hin. by apply elem_of_nil in Hin.
  - intros c i _ _ Hi. lia.
Qed.

Lemma reset_index_merged_r :
  cols t1 = [] → row_labels t1 = [] → merged t1 t2 (reset_index t2).
Proof.
  intros Hcols Hlabels.
  assert (Hlen : len (reset_index t2) = len t2).
  { unfold len at 1. cbn [row_labels reset_index]. rewrite length_seqZ. lia. }
  assert (Hlen1 : len t1 = 0) by (unfold len; by rewrite Hlabels).
  assert (Hc1 : columns t1 = []) by (unfold columns; by rewrite Hcols).
  split.
  - rewrite Hlen, Hlen1. lia.
  - intros c. rewrite Hc1. unfold columns. cbn [cols reset_index].
    split; [by right | intros [[]%elem_of_nil | ?]; done].
  - split; [apply wf2 |]. rewrite Hlen. apply wf2.
  - by rewrite Hlen.
  - intros c i v Hcell. unfold cell, find_series in Hcell. by rewrite Hcols in Hcell.
  - intros c i v Hcell. rewrite Hlen1. exists v. split; [done | by left].
  - intros c i _ _ Hi. lia.
  - intros c i Hin. rewrite Hc1 in Hin. by apply elem_of_nil in Hin.
Qed.

(** On frames of the data model [concat] returns, and what it returns
    is the concatenation. *)
Lemma concat_merged : ∃ r, concat t1 t2 = Return r ∧ merged t1 t2 r.
Proof.
  eexists. split; [apply concat_unique |].
  destruct (is_empty_frame t2) eqn:He2, (is_empty_frame t1) eqn:He1; cbn.
  - apply outer_join_merged.
  - apply reset_index_merged_l; unfold is_empty_frame in He2;
      by destruct (cols t2), (row_labels t2).
  - apply reset_index_merged_r; unfold is_empty_frame in He1;
      by destruct (cols t1), (row_labels t1).
  - apply outer_join_merged.
Qed.
End Concat.

(** C8: on frames of the data model, [merge_dataframes] returns a new
    frame that is the row-wise concatenation of the frame of [self.df]
    and the second frame: its row count is the sum of both row counts,
    its columns are those of either frame, its rows are labelled
    0, 1, 2, ..., the rows of [self.df] come first and the rows of the
    second frame after them, and a cell of a column one frame lacks is
    NaN.  A cell is carried as it is, or as the float64 of its number,
    or as 0 or 1 for a boolean in a column that becomes numeric, or as
    a missing cell for a missing cell.  So does [merge_csv] for a path
    with a recognised extension whose file parses to the second frame;
    [read_csv] allocates that frame first.  In both cases the frame of
    [self.df] is left as it was. *)
Theorem merge_spec (self : CsvAnalyser) (w : World) (t t2 : DataFrame) :
  heap w !! df self = Some t →
  wf_frame t →
  wf_frame t2 →
  (∀ df2, heap w !! df2 = Some t2 →
     ∃ (r : DataFrame) (w' : World),
       merge_dataframes self df2 w = Some (Return (length (heap w)), w') ∧
       heap w' = heap w ++ [r] ∧
       heap w' !! df self = Some t ∧
       merged t t2 r) ∧
  (∀ file_path,
     fs w !! file_path = Some (Parsed t2) →
     endswith file_path [".csv"; ".data"] = true →
     ∃ (r : DataFrame) (w' : World),
       merge_csv self file_path w = Some (Return (S (length (heap w))), w') ∧
       heap w' = heap w ++ [t2; r] ∧
       heap w' !! df self = Some t ∧
       merged t t2 r).
Proof.
  intros Hl Hwf Hwf2.
  destruct (concat_merged t t2 Hwf Hwf2) as (r & Hconcat & Hmerged). split.
  - intros df2 Hl2. exists r. eexists. unfold merge_dataframes.
    rewrite (bind_deref _ t), (bind_deref _ t2) by done.
    rewrite Hconcat, bind_lift_return.
    split; [done |]. split; [done |].
    split; [by apply lookup_app_l_Some | done].
  - intros file_path Hfile Hext. exists r. eexists. unfold merge_csv.
    unfold bind at 1, os_path_exists. rewrite Hfile, Hext.
    rewrite bool_decide_eq_true_2 by by eexists. cbn [negb].
    unfold bind at 1, read_csv. cbn [fs add_log]. rewrite Hfile.
    unfold alloc at 1. cbn [heap set_heap add_log].
    rewrite (bind_deref _ t) by by apply lookup_app_l_Some.
    rewrite (bind_deref _ t2) by (by apply list_lookup_middle).
    rewrite Hconcat, bind_lift_return.
    unfold alloc. cbn [heap set_heap].
    rewrite length_app, Nat.add_1_r, <- app_assoc.
    split; [done |]. split; [done |].
    split; [by apply lookup_app_l_Some | done].
Qed.

Lemma merge_spec_witness :
  heap (world_of [frame_AB; frame_gap]) !! df analyser0 = Some frame_AB ∧
  wf_frame frame_AB ∧
  wf_frame frame_gap ∧
  ∃ (r : DataFrame) (w' : World),
    merge_dataframes analyser0 1 (world_of [frame_AB; frame_gap])
    = Some (Return 2, w') ∧
    heap w' = [frame_AB; frame_gap; r] ∧
    len r = 5.
Proof.
  assert (Hgap : wf_frame frame_gap) by (split; [compute_done | by repeat constructor]).
  split; [reflexivity |]. split; [exact frame_AB_wf |]. split; [exact Hgap |].
  destruct (proj1 (merge_spec analyser0 (world_of [frame_AB; frame_gap])
                     frame_AB frame_gap eq_refl frame_AB_wf Hgap) 1 eq_refl)
    as (r & w' & Hrun & Hheap & _ & Hm).
  exists r, w'. split; [exact Hrun |]. split; [exact Hheap |].
  exact (merged_len _ _ _ Hm).
Defined.

(** * Further properties *)

(** ** Construction from a file *)

Lemma init_from_file_run (file_path : string) (w : World) (t : DataFrame) :
  endswith file_path [".csv"; ".data"] = true →
  fs w !! file_path = Some (Parsed t) →
  __init__ None (Some file_path) w
  = Some (Return {| _df := length (heap w); df := S (length (heap w));
                    _path := Some file_path |},
          {| heap := heap w ++ [t; t]; fs := fs w;
             log := log w ++ [PathExists file_path; ReadCsv file_path;
                              ReadCsv file_path] |}).
Proof.
  intros Hext Hfile. unfold __init__. rewrite Hext.
  unfold bind at 1, os_path_exists. rewrite Hfile.
  rewrite bool_decide_eq_true_2 by by eexists. cbn [negb].
  unfold bind at 1, read_csv at 1. cbn [fs add_log]. rewrite Hfile.
  unfold alloc at 1. cbn [heap set_heap add_log].
  unfold bind, read_csv. cbn [fs add_log set_heap]. rewrite Hfile.
  unfold alloc, ret. cbn [heap set_heap add_log log fs].
  rewrite length_app, Nat.add_1_r.
  unfold set_heap, add_log. cbn [heap fs log].
  by rewrite <- !app_assoc.
Qed.

(** X1: for a path with a recognised extension, construction asks once
    whether the path exists.  If it does not, [FileNotFoundError] is
    raised and the file is never read.  If the file parses, it is read
    twice: the instance holds two new, distinct objects that both equal
    the parsed frame, remembers the path, and every object that was on
    the heap is still there.  If the reader rejects the file, its error
    comes out of the first read. *)
Theorem init_from_file (file_path : string) (w : World) :
  endswith file_path [".csv"; ".data"] = true →
  (fs w !! file_path = None →
   __init__ None (Some file_path) w
   = Some (Raise (FileNotFoundError ("File '" +:+ file_path +:+ "' not found")),
           add_log (PathExists file_path) w)) ∧
  (∀ msg, fs w !! file_path = Some (Malformed msg) →
   __init__ None (Some file_path) w
   = Some (Raise (ParserError msg),
           add_log (ReadCsv file_path) (add_log (PathExists file_path) w))) ∧
  (∀ t, fs w !! file_path = Some (Parsed t) →
   ∃ (a : CsvAnalyser) (w' : World),
     __init__ None (Some file_path) w = Some (Return a, w') ∧
     _df a ≠ df a ∧
     heap w' !! _df a = Some t ∧
     heap w' !! df a = Some t ∧
     _path a = Some file_path ∧
     (∀ l x, heap w !! l = Some x → heap w' !! l = Some x) ∧
     log w' = log w ++ [PathExists file_path; ReadCsv file_path; ReadCsv file_path]).
Proof.
  intros Hext. split; [| split].
  - intros Hfile. unfold __init__. rewrite Hext.
    unfold bind, os_path_exists. rewrite Hfile.
    rewrite bool_decide_eq_false_2 by (by intros [? ?]). done.
  - intros msg Hfile. unfold __init__. rewrite Hext.
    unfold bind at 1, os_path_exists. rewrite Hfile.
    rewrite bool_decide_eq_true_2 by by eexists. cbn [negb].
    unfold bind, read_csv. cbn [fs add_log]. by rewrite Hfile.
  - intros t Hfile. eexists _, _.
    split; [by apply init_from_file_run |]. cbn [_df df _path heap log].
    split; [lia |]. split; [by apply list_lookup_middle |].
    split.
    { rewrite (lookup_app_r _ _ (S (length (heap w)))) by lia.
      by replace (S (length (heap w)) - length (heap w)) with 1 by lia. }
    split; [done |]. split; [| done].
    intros l x Hl. by apply lookup_app_l_Some.
Qed.

Lemma init_from_file_witness :
  endswith "t.csv" [".csv"; ".data"] = true ∧
  __init__ None (Some "t.csv") (world_of [])
  = Some (Raise (FileNotFoundError "File 't.csv' not found"),
          add_log (PathExists "t.csv") (world_of [])).
Proof.
  split; [reflexivity |].
  apply (proj1 (init_from_file "t.csv" (world_of []) eq_refl)).
  reflexivity.
Defined.

(** ** [merge_csv]: the failures *)

(** X2: [merge_csv] asks whether the path exists before it looks at the
    extension.  A missing path raises [FileNotFoundError], whatever its
    extension; an existing path with an unrecognised extension raises
    [ValueError("Only .csv files are supported")].  In both cases the
    file is not read and the heap is left as it was: nothing is
    allocated and the frame of [self.df] is not even looked at. *)
Theorem merge_csv_failures (self : CsvAnalyser) (file_path : string) (w : World) :
  (fs w !! file_path = None →
   merge_csv self file_path w
   = Some (Raise (FileNotFoundError ("File '" +:+ file_path +:+ "' not found")),
           add_log (PathExists file_path) w)) ∧
  (is_Some (fs w !! file_path) →
   endswith file_path [".csv"; ".data"] = false →
   merge_csv self file_path w
   = Some (Raise (ValueError "Only .csv files are supported"),
           add_log (PathExists file_path) w)) ∧
  heap (add_log (PathExists file_path) w) = heap w.
Proof.
  split; [| split; [| done]].
  - intros Hfile. unfold merge_csv, bind, os_path_exists. rewrite Hfile.
    rewrite bool_decide_eq_false_2 by (by intros [? ?]). done.
  - intros Hfile Hext. unfold merge_csv, bind, os_path_exists.
    rewrite bool_decide_eq_true_2 by done. cbn [negb]. by rewrite Hext.
Qed.

(** ** The first reset *)

(** X3: on an instance built from a file, [change_to_init_state] after
    any sequence of [standardise_headers] and [drop_missing_values]
    calls puts [self.df] back on a frame equal to the one loaded at
    construction; from then on [self.df] and [self._df] are the same
    object. *)
Theorem first_reset_restores (file_path : string) (w : World) (t : DataFrame)
    (cs : list Call) :
  fs w !! file_path = Some (Parsed t) →
  endswith file_path [".csv"; ".data"] = true →
  CallChangeToInitState ∉ cs →
  ∃ (a : CsvAnalyser) (w' : World),
    (a ←' __init__ None (Some file_path);
     a ←' calls cs a;
     change_to_init_state a) w = Some (Return a, w') ∧
    df a = _df a ∧
    heap w' !! df a = Some t.
Proof.
  intros Hfile Hext Hcs.
  set (a := {| _df := length (heap w); df := S (length (heap w));
               _path := Some file_path |}).
  pose proof (init_from_file_run file_path w t Hext Hfile) as Hinit.
  fold a in Hinit. revert Hinit. set (w0 := Build_World _ _ _). intros Hinit.
  destruct (mutating_calls_run cs a w0 t t) as (w' & Hrun & Hl); [done | ..].
  - cbn. lia.
  - cbn [df a heap w0].
    rewrite (lookup_app_r _ _ (S (length (heap w)))) by lia.
    by replace (S (length (heap w)) - length (heap w)) with 1 by lia.
  - cbn [_df a heap w0]. by apply list_lookup_middle.
  - eexists _, w'. unfold bind. rewrite Hinit, Hrun.
    unfold change_to_init_state, ret. split; [done |]. by cbn.
Qed.

Lemma first_reset_restores_witness :
  fs (world_with_file "t.csv" frame_gap) !! "t.csv" = Some (Parsed frame_gap) ∧
  endswith "t.csv" [".csv"; ".data"] = true ∧
  (CallChangeToInitState ∉ [CallStandardiseHeaders; CallDropMissingValues]) ∧
  ∃ (a : CsvAnalyser) (w' : World),
    (a ←' __init__ None (Some "t.csv");
     a ←' calls [CallStandardiseHeaders; CallDropMissingValues] a;
     change_to_init_state a) (world_with_file "t.csv" frame_gap)
    = Some (Return a, w') ∧
    df a = _df a ∧
    heap w' !! df a = Some frame_gap.
Proof.
  assert (Hcs : CallChangeToInitState
                ∉ [CallStandardiseHeaders; CallDropMissingValues]) by compute_done.
  split; [reflexivity |]. split; [reflexivity |]. split; [exact Hcs |].
  exact (first_reset_restores "t.csv" (world_with_file "t.csv" frame_gap)
           frame_gap [CallStandardiseHeaders; CallDropMissingValues]
           eq_refl eq_refl Hcs).
Defined.

(** ** Missing cells *)

Lemma mask_of_cons (n : nat) (ss : list Series) :
  all_cons ss →
  mask_of (S n) ss
  = forallb (λ s, from_option (λ v, negb (isna v)) true (head (values s))) ss
      :: mask_of n (behead <$> ss).
Proof.
  induction 1 as [| s ss (v & vs & Hs) _ IH]; [done |].
  cbn [mask_of foldr fmap list_fmap forallb behead values] in *.
  fold (mask_of (S n) ss). fold (mask_of n (behead <$> ss)).
  rewrite IH, Hs. done.
Qed.

Lemma complete_first_cells (i : Z) (ss : list Series) :
  all_cons ss →
  complete (i, omap (λ s, pair (name s) <$> head (values s)) ss)
  = forallb (λ s, from_option (λ v, negb (isna v)) true (head (values s))) ss.
Proof.
  unfold complete. cbn [snd].
  induction 1 as [| s ss (v & vs & Hs) _ IH]; [done |].
  cbn [omap list_omap forallb]. rewrite Hs. cbn. by rewrite IH.
Qed.

Lemma mask_of_records (labels : list Z) (ss : list Series) :
  Forall (λ s, length (values s) = length labels) ss →
  mask_of (length labels) ss = complete <$> records_from labels ss.
Proof.
  revert ss. induction labels as [| i labels IH]; intros ss Hlen.
  - cbn. induction Hlen as [| s ss Hs _ IHss]; [done |].
    cbn [mask_of foldr] in *. fold (mask_of 0 ss). rewrite IHss.
    by destruct (values s).
  - destruct (all_cons_of_length _ _ Hlen) as [Hcons Hlen'].
    cbn [length records_from fmap list_fmap].
    rewrite mask_of_cons, complete_first_cells by done.
    f_equal. by apply IH.
Qed.

Lemma length_select_eq {A B} (mask : list bool) (l1 : list A) (l2 : list B) :
  length l1 = length l2 → length (select mask l1) = length (select mask l2).
Proof.
  revert l1 l2. induction mask as [| b mask IH]; intros [| x l1] [| y l2] Hlen;
    try done.
  injection Hlen as Hlen. specialize (IH l1 l2 Hlen). destruct b; cbn; lia.
Qed.

Lemma select_all {A} (mask : list bool) (l : list A) :
  Forall (λ b, b = true) mask → length mask = length l → select mask l = l.
Proof.
  revert l. induction mask as [| b mask IH]; intros [| x l] Hall Hlen; try done.
  apply Forall_cons in Hall as [-> Hall]. injection Hlen as Hlen.
  cbn. by rewrite IH.
Qed.

Lemma records_dropna (t : DataFrame) :
  Forall (λ s, length (values s) = len t) (cols t) →
  records (dropna t) = filter (λ r, complete r) (records t).
Proof.
  intros Hlen. unfold records, dropna, getitem_mask, notna_mask.
  cbn [row_labels cols]. fold (mask_of (len t) (cols t)).
  unfold len in *. rewrite mask_of_records by done.
  rewrite records_from_select.
  - apply select_fmap_filter.
  - by rewrite length_fmap, length_records_from.
  - done.
Qed.

Lemma dropna_lengths (t : DataFrame) :
  Forall (λ s, length (values s) = len t) (cols t) →
  Forall (λ s, length (values s) = len (dropna t)) (cols (dropna t)).
Proof.
  intros Hlen. unfold dropna, getitem_mask, len. cbn [row_labels cols].
  apply Forall_fmap. eapply Forall_impl; [exact Hlen |]. intros s Hs.
  unfold compose, select_series. cbn [values]. by apply length_select_eq.
Qed.

Lemma getitem_mask_all (t : DataFrame) (mask : list bool) :
  Forall (λ s, length (values s) = len t) (cols t) →
  Forall (λ b, b = true) mask → length mask = len t →
  getitem_mask t mask = t.
Proof.
  intros Hlen Hall Hmask. destruct t as [labels ss]. unfold getitem_mask, len in *.
  cbn [row_labels cols] in *. f_equal; [by apply select_all |].
  rewrite <- (list_fmap_id ss) at 2. apply Forall_fmap_ext.
  eapply Forall_impl; [exact Hlen |]. intros [c d vs] Hs. cbn in Hs.
  unfold select_series. cbn. f_equal. apply select_all; [done | lia].
Qed.

Lemma dropna_complete (t : DataFrame) :
  Forall (λ s, length (values s) = len t) (cols t) →
  Forall (λ r, complete r = true) (records t) →
  dropna t = t.
Proof.
  intros Hlen Hall. unfold dropna. apply getitem_mask_all; [done | |].
  - unfold notna_mask. fold (mask_of (len t) (cols t)). unfold len in *.
    rewrite mask_of_records by done. by apply Forall_fmap.
  - unfold notna_mask. fold (mask_of (len t) (cols t)). unfold len in *.
    rewrite mask_of_records by done. by rewrite length_fmap, length_records_from.
Qed.

Lemma dropna_idem (t : DataFrame) :
  Forall (λ s, length (values s) = len t) (cols t) →
  dropna (dropna t) = dropna t.
Proof.
  intros Hlen. apply dropna_complete; [by apply dropna_lengths |].
  rewrite records_dropna by done. apply Forall_forall. intros r Hr.
  apply list_elem_of_filter in Hr as [Hr _]. by apply Is_true_eq_true.
Qed.

Lemma select_zip_andb_self {A} (f : A → bool) (l : list A) (mask : list bool) :
  Forall (λ x, f x = true) (select (zip_with andb (f <$> l) mask) l).
Proof.
  revert mask. induction l as [| x l IH]; intros [| b mask]; cbn; try done.
  destruct (f x) eqn:Hx, b; cbn; try apply IH. constructor; [done | apply IH].
Qed.

Lemma select_zip_andb_r {A} (P : A → Prop) (l : list A) (m1 m2 : list bool) :
  Forall P (select m2 l) → Forall P (select (zip_with andb m1 m2) l).
Proof.
  revert m1 m2. induction l as [| x l IH]; intros [| b1 m1] [| b2 m2]; cbn;
    try done.
  destruct b1, b2; cbn; intros Hall; try (by apply IH).
  - apply Forall_cons in Hall as [Hx Hall]. constructor; [done | by apply IH].
  - apply Forall_cons in Hall as [_ Hall]. by apply IH.
Qed.

(** Whatever the shape of the frame, the mask of [dropna] keeps only
    present cells of each column. *)
Lemma select_mask_of_notna (n : nat) (ss : list Series) (s : Series) :
  s ∈ ss → Forall (λ v, negb (isna v) = true) (select (mask_of n ss) (values s)).
Proof.
  induction ss as [| a ss IH]; intros Hin; [by apply elem_of_nil in Hin |].
  cbn [mask_of foldr]. fold (mask_of n ss).
  apply elem_of_cons in Hin as [-> | Hin].
  - apply (select_zip_andb_self (λ v, negb (isna v))).
  - apply select_zip_andb_r. by apply IH.
Qed.

Lemma count_na_zero (s : Series) :
  count_na s = 0%Z ↔ Forall (λ v, negb (isna v) = true) (values s).
Proof.
  unfold count_na. induction (values s) as [| v vs IH]; [done |].
  destruct (isna v) eqn:Hv.
  - rewrite filter_cons_True by by rewrite Hv. cbn [length]. split; [lia |].
    intros Hall. apply Forall_cons in Hall as [Hall _]. by rewrite Hv in Hall.
  - rewrite filter_cons_False by (rewrite Hv; by intros []).
    rewrite IH. split.
    + intros Hall. constructor; [by rewrite Hv | done].
    + intros Hall. by apply Forall_cons in Hall as [_ Hall].
Qed.

Lemma mask_of_all_true (n : nat) (ss : list Series) :
  Forall (λ s, length (values s) = n) ss →
  Forall (λ s, count_na s = 0%Z) ss →
  mask_of n ss = replicate n true.
Proof.
  induction 1 as [| s ss Hs _ IH]; intros Hzero; [done |].
  apply Forall_cons in Hzero as [Hz Hzero]. apply count_na_zero in Hz.
  cbn [mask_of foldr]. fold (mask_of n ss). rewrite IH by done.
  subst n. clear -Hz. induction Hz as [| v vs Hv _ IHvs]; [done |].
  cbn. by rewrite Hv, IHvs.
Qed.

Lemma foldl_insert_const (stat : Series → Value) (v : Value) (ss : list Series)
    (acc : gmap string Value) (c : string) :
  Forall (λ s, stat s = v) ss →
  acc !! c = Some v ∨ c ∈ name <$> ss →
  foldl (λ m s, <[name s := stat s]> m) acc ss !! c = Some v.
Proof.
  intros Hall. revert acc. induction Hall as [| s ss Hs _ IH]; intros acc Hc.
  - destruct Hc as [Hc | Hc]; [done | by apply elem_of_nil in Hc].
  - cbn [foldl]. apply IH. rewrite fmap_cons, elem_of_cons in Hc.
    destruct (decide (name s = c)) as [<- | Hne].
    + left. by rewrite lookup_insert_eq, Hs.
    + destruct Hc as [Hc | [Hc | Hc]]; [| congruence | by right].
      left. by rewrite lookup_insert_ne.
Qed.

Lemma dom_isnull_sum_to_dict (t : DataFrame) (c : string) :
  c ∈ dom (isnull_sum_to_dict t) ↔ c ∈ columns t.
Proof.
  unfold isnull_sum_to_dict, columns.
  rewrite elem_of_dom, <- not_eq_None_Some, foldl_insert_None, lookup_empty.
  destruct (decide (c ∈ name <$> cols t)); tauto.
Qed.

(** X4: [drop_missing_values] never fails.  It returns the reference
    [self.df] itself and replaces the frame behind it, in place, by the
    frame whose records are exactly the records without a missing cell,
    in their order and under their old row labels (the rows are not
    renumbered); the columns keep their names and dtypes, and no other
    object changes. *)
Theorem drop_missing_values_spec (self : CsvAnalyser) (w : World) (t : DataFrame) :
  heap w !! df self = Some t →
  Forall (λ s, length (values s) = len t) (cols t) →
  ∃ (t' : DataFrame) (w' : World),
    drop_missing_values self w = Some (Return (df self), w') ∧
    heap w' !! df self = Some t' ∧
    records t' = filter (λ r, complete r) (records t) ∧
    row_labels t' `sublist_of` row_labels t ∧
    columns t' = columns t ∧
    dtype <$> cols t' = dtype <$> cols t ∧
    (∀ l, l ≠ df self → heap w' !! l = heap w !! l).
Proof.
  intros Hl Hlen. exists (dropna t). eexists.
  split; [by apply drop_missing_values_run |]. rewrite heap_set_heap.
  assert (Hlt : df self < length (heap w)) by (apply lookup_lt_is_Some; eauto).
  split; [by apply list_lookup_insert_eq |].
  split; [by apply records_dropna |].
  split.
  { unfold dropna, getitem_mask. cbn [row_labels].
    generalize (notna_mask t). generalize (row_labels t). clear.
    induction l as [| x l IH]; intros [| b mask]; cbn; try done.
    - apply sublist_nil_l.
    - destruct b; [by apply sublist_skip | by apply sublist_cons]. }
  unfold columns, dropna, getitem_mask. cbn [cols].
  rewrite <- !list_fmap_compose.
  repeat split; try done.
  intros l Hne. by apply list_lookup_insert_ne.
Qed.

Lemma frame_gap_lengths :
  Forall (λ s, length (values s) = len frame_gap) (cols frame_gap).
Proof. by repeat constructor. Qed.

Lemma drop_missing_values_spec_witness :
  heap (world_of [frame_gap]) !! df analyser0 = Some frame_gap ∧
  Forall (λ s, length (values s) = len frame_gap) (cols frame_gap) ∧
  ∃ (t' : DataFrame) (w' : World),
    drop_missing_values analyser0 (world_of [frame_gap]) = Some (Return 0, w') ∧
    heap w' !! 0 = Some t' ∧
    records t' = filter (λ r, complete r) (records frame_gap).
Proof.
  split; [reflexivity |]. split; [exact frame_gap_lengths |].
  destruct (drop_missing_values_spec analyser0 (world_of [frame_gap]) frame_gap
              eq_refl frame_gap_lengths) as (t' & w' & Hrun & Hl & Hrec & _).
  by exists t', w'.
Defined.

(** X5: a second [drop_missing_values] changes nothing: two calls in a
    row leave the world that one call leaves. *)
Theorem drop_missing_values_idempotent (self : CsvAnalyser) (w : World)
    (t : DataFrame) :
  heap w !! df self = Some t →
  Forall (λ s, length (values s) = len t) (cols t) →
  (drop_missing_values self;;' drop_missing_values self) w
  = drop_missing_values self w.
Proof.
  intros Hl Hlen.
  assert (Hlt : df self < length (heap w)) by (apply lookup_lt_is_Some; eauto).
  unfold bind at 1. rewrite (drop_missing_values_run self w t) by done.
  erewrite drop_missing_values_run
    by (rewrite heap_set_heap; by apply list_lookup_insert_eq).
  by rewrite heap_set_heap, set_heap_set_heap, list_insert_insert_eq, dropna_idem.
Qed.

Lemma drop_missing_values_idempotent_witness :
  heap (world_of [frame_gap]) !! df analyser0 = Some frame_gap ∧
  Forall (λ s, length (values s) = len frame_gap) (cols frame_gap) ∧
  (drop_missing_values analyser0;;' drop_missing_values analyser0)
    (world_of [frame_gap])
  = drop_missing_values analyser0 (world_of [frame_gap]).
Proof.
  split; [reflexivity |]. split; [exact frame_gap_lengths |].
  exact (drop_missing_values_idempotent analyser0 (world_of [frame_gap]) frame_gap
           eq_refl frame_gap_lengths).
Defined.

(** X6: on a frame of the data model, [check_missing_values] returns,
    without touching the world, a dict whose keys are exactly the column
    names and whose value under each is the number of missing cells of
    that column.  It reports 0 for every column exactly when
    [drop_missing_values] would leave the world as it is. *)
Theorem check_missing_values_spec (self : CsvAnalyser) (w : World) (t : DataFrame) :
  heap w !! df self = Some t →
  wf_frame t →
  ∃ m : gmap string Value,
    check_missing_values self w = Some (Return m, w) ∧
    (∀ c, c ∈ dom m ↔ c ∈ columns t) ∧
    (∀ s, s ∈ cols t → m !! name s = Some (VInt (count_na s))) ∧
    ((∀ c, c ∈ columns t → m !! c = Some (VInt 0))
     ↔ drop_missing_values self w = Some (Return (df self), w)).
Proof.
  intros Hl [Hnd Hlen]. exists (isnull_sum_to_dict t).
  assert (Hcount : ∀ s, s ∈ cols t →
            isnull_sum_to_dict t !! name s = Some (VInt (count_na s))).
  { intros s Hs. by apply (foldl_insert_Some (λ s, VInt (count_na s))). }
  split; [unfold check_missing_values; by rewrite (bind_deref _ t) |].
  split; [apply dom_isnull_sum_to_dict |]. split; [done |].
  rewrite (drop_missing_values_run self w t) by done. split.
  - intros Hzero.
    assert (Hdrop : dropna t = t).
    { unfold dropna. apply getitem_mask_all; [done | |].
      - unfold notna_mask. fold (mask_of (len t) (cols t)).
        rewrite mask_of_all_true; [by apply Forall_replicate | done |].
        apply Forall_forall. intros s Hs.
        specialize (Hzero (name s) (list_elem_of_fmap_2 _ _ _ Hs)).
        rewrite Hcount in Hzero by done. by injection Hzero.
      - unfold notna_mask. fold (mask_of (len t) (cols t)).
        rewrite mask_of_all_true; [apply length_replicate | done |].
        apply Forall_forall. intros s Hs.
        specialize (Hzero (name s) (list_elem_of_fmap_2 _ _ _ Hs)).
        rewrite Hcount in Hzero by done. by injection Hzero. }
    rewrite Hdrop, list_insert_id by done. by destruct w.
  - intros [= Hw]. intros c Hc.
    assert (Hdrop : dropna t = t).
    { assert (Hlt : df self < length (heap w)) by (apply lookup_lt_is_Some; eauto).
      pose proof (list_lookup_insert_eq (heap w) (df self) (dropna t) Hlt) as Hnew.
      pose proof (f_equal (λ w', heap w' !! df self) Hw) as Hsame.
      cbn beta in Hsame. rewrite heap_set_heap in Hsame. unfold loc in *.
      rewrite Hnew, Hl in Hsame. by injection Hsame. }
    apply list_elem_of_fmap in Hc as (s & -> & Hs). rewrite Hcount by done.
    do 2 f_equal. apply count_na_zero.
    rewrite <- Hdrop in Hs. unfold dropna, getitem_mask in Hs. cbn [cols] in Hs.
    apply list_elem_of_fmap in Hs as (s0 & -> & Hs0).
    unfold select_series. cbn [values]. by apply select_mask_of_notna.
Qed.

Lemma check_missing_values_spec_witness :
  heap (world_of [frame_AB]) !! df analyser0 = Some frame_AB ∧
  wf_frame frame_AB ∧
  ∃ m : gmap string Value,
    check_missing_values analyser0 (world_of [frame_AB])
    = Some (Return m, world_of [frame_AB]) ∧
    (∀ c, c ∈ dom m ↔ c ∈ columns frame_AB).
Proof.
  split; [reflexivity |]. split; [exact frame_AB_wf |].
  destruct (check_missing_values_spec analyser0 (world_of [frame_AB]) frame_AB
              eq_refl frame_AB_wf) as (m & Hrun & Hdom & _).
  by exists m.
Defined.

(** X7: whatever the frame, right after [drop_missing_values] the
    report of [check_missing_values] has the column names as its keys
    and 0 under every one of them. *)
Theorem no_missing_after_drop (self : CsvAnalyser) (w : World) (t : DataFrame) :
  heap w !! df self = Some t →
  ∃ (m : gmap string Value) (w' : World),
    (drop_missing_values self;;' check_missing_values self) w
    = Some (Return m, w') ∧
    (∀ c, c ∈ dom m ↔ c ∈ columns t) ∧
    (∀ c, c ∈ columns t → m !! c = Some (VInt 0)).
Proof.
  intros Hl.
  assert (Hlt : df self < length (heap w)) by (apply lookup_lt_is_Some; eauto).
  assert (Hcols : columns (dropna t) = columns t).
  { unfold columns, dropna, getitem_mask. cbn [cols].
    by rewrite <- list_fmap_compose. }
  exists (isnull_sum_to_dict (dropna t)). eexists. split; [| split].
  - unfold bind. rewrite (drop_missing_values_run self w t) by done.
    unfold check_missing_values.
    by rewrite (bind_deref _ (dropna t))
      by (rewrite heap_set_heap; by apply list_lookup_insert_eq).
  - intros c. by rewrite dom_isnull_sum_to_dict, Hcols.
  - intros c Hc. apply (foldl_insert_const (λ s, VInt (count_na s))).
    + apply Forall_forall. intros s Hs. f_equal. apply count_na_zero.
      unfold dropna, getitem_mask in Hs. cbn [cols] in Hs.
      apply list_elem_of_fmap in Hs as (s0 & -> & Hs0).
      unfold select_series. cbn [values]. by apply select_mask_of_notna.
    + right. by rewrite <- Hcols in Hc.
Qed.

Lemma no_missing_after_drop_witness :
  heap (world_of [frame_gap]) !! df analyser0 = Some frame_gap ∧
  ∃ (m : gmap string Value) (w' : World),
    (drop_missing_values analyser0;;' check_missing_values analyser0)
      (world_of [frame_gap])
    = Some (Return m, w') ∧
    (∀ c, c ∈ columns frame_gap → m !! c = Some (VInt 0)).
Proof.
  split; [reflexivity |].
  destruct (no_missing_after_drop analyser0 (world_of [frame_gap]) frame_gap eq_refl)
    as (m & w' & Hrun & _ & Hzero).
  by exists m, w'.
Defined.

(** ** [remove_duplicates] *)

Lemma existsb_false_Forall {A} (f : A → bool) (l : list A) :
  existsb f l = false ↔ Forall (λ x, f x = false) l.
Proof.
  induction l as [| x l IH]; cbn; [by split |].
  rewrite orb_false_iff, IH, Forall_cons. tauto.
Qed.

Lemma select_sublist {A} (mask : list bool) (l : list A) :
  select mask l `sublist_of` l.
Proof.
  revert mask. induction l as [| x l IH]; intros [| b mask]; cbn; try done.
  - apply sublist_nil_l.
  - destruct b; [by apply sublist_skip | by apply sublist_cons].
Qed.

Lemma length_duplicated_from (single : bool) (ds : list Dtype)
    (seen rs : list Record_) :
  length (duplicated_from single ds seen rs) = length rs.
Proof.
  revert seen. induction rs as [| x rs IH]; intros seen; [done |].
  cbn. by rewrite IH.
Qed.

Section Duplicates.
Context (single : bool) (ds : list Dtype).

(** The records that survive, given the records seen before. *)
Local Abbreviation kept seen rs :=
  (select (negb <$> duplicated_from single ds seen rs) rs).

Lemma kept_fresh (seen rs : list Record_) (r : Record_) :
  r ∈ kept seen rs → Forall (λ r', same_row single ds r' r = false) seen.
Proof.
  revert seen. induction rs as [| x rs IH]; intros seen Hin;
    [by apply elem_of_nil in Hin |].
  cbn [duplicated_from fmap list_fmap select] in Hin.
  destruct (existsb (λ r', same_row single ds r' x) seen) eqn:Hdup; cbn [negb] in Hin.
  - apply IH in Hin. by apply Forall_cons in Hin as [_ Hin].
  - apply elem_of_cons in Hin as [-> | Hin]; [by apply existsb_false_Forall |].
    apply IH in Hin. by apply Forall_cons in Hin as [_ Hin].
Qed.

Lemma kept_pairwise (seen rs : list Record_) (i j : nat) (ri rj : Record_) :
  i < j → kept seen rs !! i = Some ri → kept seen rs !! j = Some rj →
  same_row single ds ri rj = false.
Proof.
  revert seen i j. induction rs as [| x rs IH]; intros seen i j Hij Hi Hj;
    [done |].
  cbn [duplicated_from fmap list_fmap select] in Hi, Hj.
  destruct (existsb (λ r', same_row single ds r' x) seen); cbn [negb] in Hi, Hj;
    [by eapply IH |].
  destruct j as [| j]; [lia |]. cbn in Hj. destruct i as [| i].
  - injection Hi as <-. apply list_elem_of_lookup_2, kept_fresh in Hj.
    by apply Forall_cons in Hj as [Hj _].
  - cbn in Hi. eapply (IH _ i j); [lia | done..].
Qed.

Lemma kept_first (seen rs : list Record_) (k : nat) (r : Record_) :
  rs !! k = Some r →
  Forall (λ r', same_row single ds r' r = false) seen →
  (∀ k' r', k' < k → rs !! k' = Some r' → same_row single ds r' r = false) →
  r ∈ kept seen rs.
Proof.
  revert seen k. induction rs as [| x rs IH]; intros seen k Hk Hseen Hbefore;
    [done |].
  cbn [duplicated_from fmap list_fmap select].
  destruct k as [| k].
  - injection Hk as ->. apply existsb_false_Forall in Hseen. rewrite Hseen.
    cbn. by left.
  - cbn in Hk.
    assert (Hin : r ∈ kept (x :: seen) rs).
    { apply (IH _ k); [done | |].
      - constructor; [| done]. by apply (Hbefore 0 x); [lia |].
      - intros k' r' Hk' Hr'. apply (Hbefore (S k') r'); [lia | done]. }
    destruct (negb _); [by right | done].
Qed.

Lemma kept_no_duplicates (seen seen' rs : list Record_) :
  seen' ⊆ seen →
  Forall (λ b, b = false) (duplicated_from single ds seen' (kept seen rs)).
Proof.
  revert seen seen'. induction rs as [| x rs IH]; intros seen seen' Hsub;
    [by constructor |].
  cbn [duplicated_from fmap list_fmap select].
  destruct (existsb (λ r', same_row single ds r' x) seen) eqn:Hdup; cbn [negb].
  - apply IH. intros r Hr. right. by apply Hsub.
  - cbn [duplicated_from]. constructor.
    + apply existsb_false_Forall, Forall_forall. intros r Hr.
      apply existsb_false_Forall in Hdup. rewrite Forall_forall in Hdup.
      by apply Hdup, Hsub.
    + apply IH. intros r Hr. apply elem_of_cons in Hr as [-> | Hr]; [by left |].
      right. by apply Hsub.
Qed.

End Duplicates.

Lemma getitem_mask_lengths (t : DataFrame) (mask : list bool) :
  Forall (λ s, length (values s) = len t) (cols t) →
  Forall (λ s, length (values s) = len (getitem_mask t mask))
         (cols (getitem_mask t mask)).
Proof.
  intros Hlen. unfold getitem_mask, len. cbn [row_labels cols].
  apply Forall_fmap. eapply Forall_impl; [exact Hlen |]. intros s Hs.
  unfold compose, select_series. cbn [values]. by apply length_select_eq.
Qed.

Lemma records_drop_duplicates (t : DataFrame) :
  Forall (λ s, length (values s) = len t) (cols t) →
  cols t ≠ [] →
  records (drop_duplicates t) = select (negb <$> duplicated t) (records t).
Proof.
  intros Hlen Hcols. unfold drop_duplicates.
  destruct (cols t) as [| s ss] eqn:Hss; [done |].
  destruct (row_labels t) as [| i labels] eqn:Hlabels.
  - unfold records, duplicated, records. by rewrite Hlabels.
  - unfold records at 1, getitem_mask. cbn [row_labels cols].
    rewrite Hss, Hlabels in *. unfold len in Hlen. rewrite Hlabels in Hlen.
    rewrite records_from_select; [by unfold records; rewrite Hss, Hlabels | | done].
    unfold duplicated, records. rewrite Hss, Hlabels, length_fmap.
    by rewrite length_duplicated_from, length_records_from.
Qed.

Lemma drop_duplicates_idem (t : DataFrame) :
  Forall (λ s, length (values s) = len t) (cols t) →
  drop_duplicates (drop_duplicates t) = drop_duplicates t.
Proof.
  intros Hlen.
  assert (Hcase : cols t = [] ∨ cols t ≠ [])
    by (destruct (cols t); [by left | by right]).
  destruct Hcase as [Hnil | Hcols].
  { unfold drop_duplicates. rewrite Hnil. cbn. by rewrite Hnil. }
  pose proof (records_drop_duplicates t Hlen Hcols) as Hrec.
  unfold drop_duplicates in *.
  destruct (cols t) as [| s ss] eqn:Hss; [done |].
  destruct (row_labels t) as [| i labels] eqn:Hlabels; [by rewrite Hss, Hlabels |].
  set (t' := getitem_mask t (negb <$> duplicated t)) in *.
  assert (Hlen' : Forall (λ s, length (values s) = len t') (cols t')).
  { apply getitem_mask_lengths. by rewrite Hss. }
  destruct (cols t') as [| s' ss'] eqn:Hss'; [done |].
  destruct (row_labels t') as [| i' labels'] eqn:Hlabels'; [done |].
  apply getitem_mask_all.
  - by rewrite Hss'.
  - apply Forall_fmap. unfold duplicated at 1. rewrite Hrec.
    replace (dtype <$> cols t') with (dtype <$> cols t)
      by (subst t'; unfold getitem_mask; cbn [cols];
          by rewrite <- list_fmap_compose).
    replace (one_column t') with (one_column t)
      by (subst t'; unfold one_column, getitem_mask; cbn [cols];
          by destruct (cols t) as [| ? [| ? ?]]).
    unfold duplicated.
    eapply Forall_impl;
      [apply (kept_no_duplicates (one_column t) (dtype <$> cols t) [] []); done |].
    by intros b ->.
  - rewrite length_fmap. unfold duplicated. rewrite length_duplicated_from.
    apply length_records_from.
Qed.

(** X8: on a frame with at least one column, [remove_duplicates]
    returns a new frame and leaves the frame of [self.df] as it was.
    The records of the result are records of [self.df], in their order
    and under their old row labels; a record that no earlier record
    equals is kept; and no record of the result equals an earlier record
    of the result.  Two records are equal when their cells are equal
    column by column; in a frame of several columns any two missing
    cells count as equal, in a frame of one column [None] equals [None]
    and NaN equals NaN only. *)
Theorem remove_duplicates_spec (self : CsvAnalyser) (w : World) (t : DataFrame) :
  heap w !! df self = Some t →
  Forall (λ s, length (values s) = len t) (cols t) →
  cols t ≠ [] →
  ∃ (t' : DataFrame) (w' : World),
    remove_duplicates self w = Some (Return (length (heap w)), w') ∧
    heap w' = heap w ++ [t'] ∧
    heap w' !! df self = Some t ∧
    columns t' = columns t ∧
    records t' `sublist_of` records t ∧
    (∀ k r, records t !! k = Some r →
       (∀ k' r', k' < k → records t !! k' = Some r' →
                 same_row (one_column t) (dtype <$> cols t) r' r = false) →
       r ∈ records t') ∧
    (∀ i j ri rj, i < j →
       records t' !! i = Some ri → records t' !! j = Some rj →
       same_row (one_column t) (dtype <$> cols t) ri rj = false).
Proof.
  intros Hl Hlen Hcols. eexists (drop_duplicates t), _.
  unfold remove_duplicates. rewrite (bind_deref _ t) by done.
  split; [done |]. cbn [heap set_heap].
  split; [done |]. split; [by apply lookup_app_l_Some |].
  rewrite records_drop_duplicates by done.
  split; [| split; [apply select_sublist | split]].
  - unfold drop_duplicates. destruct (cols t), (row_labels t); try done.
    unfold columns, getitem_mask. cbn [cols]. by rewrite <- list_fmap_compose.
  - intros k r Hk Hbefore. by apply (kept_first _ _ [] _ k).
  - intros i j ri rj. apply kept_pairwise.
Qed.

Lemma frame_repeat_lengths :
  Forall (λ s, length (values s) = len frame_repeat) (cols frame_repeat).
Proof. by repeat constructor. Qed.

Lemma remove_duplicates_spec_witness :
  heap (world_of [frame_repeat]) !! df analyser0 = Some frame_repeat ∧
  Forall (λ s, length (values s) = len frame_repeat) (cols frame_repeat) ∧
  cols frame_repeat ≠ [] ∧
  ∃ (t' : DataFrame) (w' : World),
    remove_duplicates analyser0 (world_of [frame_repeat]) = Some (Return 1, w') ∧
    heap w' = [frame_repeat; t'] ∧
    records t' `sublist_of` records frame_repeat.
Proof.
  split; [reflexivity |]. split; [exact frame_repeat_lengths |].
  split; [discriminate |].
  destruct (remove_duplicates_spec analyser0 (world_of [frame_repeat]) frame_repeat
              eq_refl frame_repeat_lengths ltac:(discriminate))
    as (t' & w' & Hrun & Hheap & _ & _ & Hsub & _).
  by exists t', w'.
Defined.

(** X9: removing duplicates from the result of [remove_duplicates]
    changes nothing: an instance built on the returned frame returns,
    from its own [remove_duplicates], a frame equal to the one it was
    built on. *)
Theorem remove_duplicates_idempotent (self : CsvAnalyser) (w : World)
    (t : DataFrame) :
  heap w !! df self = Some t →
  Forall (λ s, length (values s) = len t) (cols t) →
  ∃ (r r' : loc) (t' : DataFrame) (w' : World),
    (r ←' remove_duplicates self;
     a ←' __init__ (Some r) None;
     r' ←' remove_duplicates a;
     ret (r, r')) w = Some (Return (r, r'), w') ∧
    r ≠ r' ∧
    heap w' !! r = Some t' ∧
    heap w' !! r' = Some t'.
Proof.
  intros Hl Hlen.
  exists (length (heap w)), (S (length (heap w))), (drop_duplicates t). eexists.
  unfold remove_duplicates at 1. unfold bind at 1.
  rewrite (bind_deref _ t) by done. unfold alloc at 1.
  unfold bind at 1. cbn [__init__ ret]. unfold bind at 1.
  unfold remove_duplicates. cbn [df].
  rewrite (bind_deref _ (drop_duplicates t))
    by (cbn [heap set_heap]; by apply list_lookup_middle).
  rewrite drop_duplicates_idem by done.
  unfold alloc, ret. cbn [heap set_heap]. rewrite length_app, Nat.add_1_r.
  split; [done |]. split; [lia |]. cbn [heap set_heap]. split.
  - apply lookup_app_l_Some. by apply list_lookup_middle.
  - apply list_lookup_middle. by rewrite length_app, Nat.add_1_r.
Qed.

Lemma remove_duplicates_idempotent_witness :
  heap (world_of [frame_repeat]) !! df analyser0 = Some frame_repeat ∧
  Forall (λ s, length (values s) = len frame_repeat) (cols frame_repeat) ∧
  ∃ (r r' : loc) (t' : DataFrame) (w' : World),
    (r ←' remove_duplicates analyser0;
     a ←' __init__ (Some r) None;
     r' ←' remove_duplicates a;
     ret (r, r')) (world_of [frame_repeat]) = Some (Return (r, r'), w') ∧
    r ≠ r' ∧
    heap w' !! r = Some t' ∧
    heap w' !! r' = Some t'.
Proof.
  split; [reflexivity |]. split; [exact frame_repeat_lengths |].
  exact (remove_duplicates_idempotent analyser0 (world_of [frame_repeat])
           frame_repeat eq_refl frame_repeat_lengths).
Defined.

(** ** [drop_column] with one name *)

(** X10: for a single name, [drop_column] raises
    [ValueError("Column '...' not found in the DataFrame")] when no
    column has that name and allocates nothing.  Otherwise it returns a
    new frame that holds, in their order and with their cells, exactly
    the columns of [self.df] with a different name, under the same row
    labels; the frame of [self.df] stays as it was. *)
Theorem drop_column_name (self : CsvAnalyser) (column : string) (w : World)
    (t : DataFrame) :
  heap w !! df self = Some t →
  (column ∉ columns t →
   drop_column self (Name column) w
   = Some (Raise (ValueError ("Column '" +:+ column +:+ "' not found in the DataFrame")),
           w)) ∧
  (column ∈ columns t →
   ∃ (t' : DataFrame) (w' : World),
     drop_column self (Name column) w = Some (Return (length (heap w)), w') ∧
     heap w' = heap w ++ [t'] ∧
     heap w' !! df self = Some t ∧
     cols t' = filter (λ s, name s ≠ column) (cols t) ∧
     row_labels t' = row_labels t ∧
     column ∉ columns t').
Proof.
  intros Hl. unfold drop_column. rewrite (bind_deref _ t) by done.
  cbn [Index_contains]. rewrite bind_lift_return. split.
  - intros Hnot. by rewrite bool_decide_eq_false_2.
  - intros Hin. rewrite bool_decide_eq_true_2 by done. cbn [negb labels_of].
    unfold drop. rewrite filter_cons_False by (by intros Hnot).
    rewrite filter_nil, bind_lift_return.
    eexists _, _. split; [done |]. cbn [heap set_heap row_labels cols].
    split; [done |]. split; [by apply lookup_app_l_Some |].
    assert (Hfilter : filter (λ s, name s ∉ [column]) (cols t)
                      = filter (λ s, name s ≠ column) (cols t)).
    { apply list_filter_iff. intros s. by rewrite not_elem_of_cons,
        elem_of_nil; tauto. }
    split; [done |]. split; [done |].
    unfold columns. cbn [cols]. rewrite Hfilter.
    intros (s & -> & Hs)%list_elem_of_fmap.
    by apply list_elem_of_filter in Hs as [Hne _].
Qed.

Lemma drop_column_name_witness :
  heap (world_of [frame_AB]) !! df analyser0 = Some frame_AB ∧
  drop_column analyser0 (Name "Z") (world_of [frame_AB])
  = Some (Raise (ValueError "Column 'Z' not found in the DataFrame"),
          world_of [frame_AB]).
Proof.
  split; [reflexivity |].
  apply (proj1 (drop_column_name analyser0 "Z" (world_of [frame_AB]) frame_AB
                  eq_refl)).
  compute_done.
Defined.

(** ** The headers [standardise_headers] writes *)

Lemma standardise_ascii_standardised (c : ascii) :
  let c' := (if Ascii.eqb (lower_ascii c) " " then "_" else lower_ascii c)%char in
  negb (Ascii.eqb c' " ")
  && negb ((65 <=? nat_of_ascii c') && (nat_of_ascii c' <=? 90)) = true.
Proof. destruct c as [[] [] [] [] [] [] [] []]; reflexivity. Qed.

Lemma standardise_ascii_fixed (c : ascii) :
  negb (Ascii.eqb c " ")
  && negb ((65 <=? nat_of_ascii c) && (nat_of_ascii c <=? 90)) = true →
  (if Ascii.eqb (lower_ascii c) " " then "_" else lower_ascii c)%char = c.
Proof. destruct c as [[] [] [] [] [] [] [] []]; cbn; by intros. Qed.

Lemma standardise_header_standardised (col : string) :
  standardised (standardise_header col) = true.
Proof.
  unfold standardise_header. induction col as [| c col IH]; [done |].
  cbn [lower replace standardised].
  by rewrite standardise_ascii_standardised, IH.
Qed.

Lemma standardised_fixed (col : string) :
  standardised col = true ↔ standardise_header col = col.
Proof.
  split; [| intros <-; apply standardise_header_standardised].
  unfold standardise_header. induction col as [| c col IH]; [done |].
  cbn [lower replace standardised]. intros [Hc Hcol]%andb_true_iff.
  by rewrite standardise_ascii_fixed, IH.
Qed.

(** X11: on a frame whose column names are ASCII strings, after
    [standardise_headers] no column name holds a space or a letter A-Z,
    and each name has the length it had.  The call leaves the column
    names as they were exactly when none of them held a space or a
    letter A-Z before. *)
Theorem standardise_headers_result (self : CsvAnalyser) (w : World) (t : DataFrame) :
  heap w !! df self = Some t →
  Forall (λ col, is_ascii col = true) (columns t) →
  ∃ (t' : DataFrame) (w' : World),
    standardise_headers self w = Some (Return (), w') ∧
    heap w' !! df self = Some t' ∧
    Forall (λ col, standardised col = true) (columns t') ∧
    String.length <$> columns t' = String.length <$> columns t ∧
    (columns t' = columns t ↔ Forall (λ col, standardised col = true) (columns t)).
Proof.
  intros Hl _. eexists _, _. split; [by apply standardise_headers_run |].
  assert (Hlt : df self < length (heap w)) by (apply lookup_lt_is_Some; eauto).
  rewrite heap_set_heap. split; [by apply list_lookup_insert_eq |].
  unfold columns. cbn [cols]. rewrite <- !list_fmap_compose.
  split; [| split].
  - apply Forall_fmap, Forall_forall. intros s _. unfold compose. cbn.
    apply standardise_header_standardised.
  - apply list_fmap_ext. intros _ s _. unfold compose. cbn.
    unfold standardise_header. generalize (name s). clear.
    induction s as [| c s IH]; [done |]. cbn. by rewrite IH.
  - rewrite Forall_fmap. split.
    + intros Heq. apply Forall_fmap_ext in Heq.
      eapply Forall_impl; [exact Heq |]. intros s Hs. unfold compose in *.
      cbn in Hs. by apply standardised_fixed.
    + intros Hall. apply Forall_fmap_ext.
      eapply Forall_impl; [exact Hall |]. intros s Hs. unfold compose in *.
      cbn. by apply standardised_fixed.
Qed.

Lemma standardise_headers_result_witness :
  heap (world_of [frame_headers]) !! df analyser0 = Some frame_headers ∧
  Forall (λ col, is_ascii col = true) (columns frame_headers) ∧
  ∃ (t' : DataFrame) (w' : World),
    standardise_headers analyser0 (world_of [frame_headers])
    = Some (Return (), w') ∧
    heap w' !! df analyser0 = Some t' ∧
    Forall (λ col, standardised col = true) (columns t').
Proof.
  split; [reflexivity |]. split; [exact frame_headers_ascii |].
  destruct (standardise_headers_result analyser0 (world_of [frame_headers])
              frame_headers eq_refl frame_headers_ascii)
    as (t' & w' & Hrun & Hl & Hall & _).
  by exists t', w'.
Defined.

(** ** [plot_column]: what is refused *)

(** X12: whatever the plotting calls do, [plot_column] refuses a bad
    request before any of them runs.  A column that is not in the frame
    raises [ValueError("Column '...' not found in the DataFrame")],
    whatever the plot type; a column of the frame with a plot type
    other than "histogram" and "boxplot" raises
    [ValueError("Unsupported plot type: ...")].  In both cases the world
    is left as it was. *)
Theorem plot_column_refuses (plt : Pyplot) (self : CsvAnalyser)
    (column plot_type : string) (w : World) (t : DataFrame) :
  heap w !! df self = Some t →
  (column ∉ columns t →
   plot_column self column plot_type w
   = Some (Raise (ValueError ("Column '" +:+ column +:+ "' not found in the DataFrame")),
           w)) ∧
  (column ∈ columns t →
   plot_type ≠ "histogram" → plot_type ≠ "boxplot" →
   plot_column self column plot_type w
   = Some (Raise (ValueError ("Unsupported plot type: " +:+ plot_type)), w)).
Proof.
  intros Hl. unfold plot_column. rewrite (bind_deref _ t) by done. split.
  - intros Hnot. by rewrite bool_decide_eq_false_2.
  - intros Hin Hhist Hbox. rewrite bool_decide_eq_true_2 by done. cbn [negb].
    apply String.eqb_neq in Hhist, Hbox. by rewrite Hhist, Hbox.
Qed.

Lemma plot_column_refuses_witness :
  heap (world_of [frame_AB]) !! df analyser0 = Some frame_AB ∧
  @plot_column blank_pyplot analyser0 "A" "pie" (world_of [frame_AB])
  = Some (Raise (ValueError "Unsupported plot type: pie"), world_of [frame_AB]).
Proof.
  split; [reflexivity |].
  apply (proj2 (plot_column_refuses blank_pyplot analyser0 "A" "pie"
                  (world_of [frame_AB]) frame_AB eq_refl)).
  - compute_done.
  - discriminate.
  - discriminate.
Defined.

(** ** Rows and columns *)

Lemma assoc_row_cell (k : nat) (ss : list Series) (kvs : list (string * Value))
    (s : Series) :
  NoDup (name <$> ss) →
  Forall2 (λ s kv, kv.1 = name s ∧ ∃ v, values s !! k = Some v ∧ upcast v kv.2)
          ss kvs →
  s ∈ ss →
  ∃ v v', values s !! k = Some v ∧ assoc (name s) kvs = Some v' ∧ upcast v v'.
Proof.
  intros Hnd Hall. induction Hall as [| a [c x] ss kvs (Hc & v & Hv & Hup) _ IH];
    intros Hin; [by apply elem_of_nil in Hin |].
  rewrite fmap_cons in Hnd. apply NoDup_cons in Hnd as [Hnot Hnd].
  cbn in Hc, Hup. subst c. cbn [assoc].
  apply elem_of_cons in Hin as [-> | Hin].
  - rewrite String.eqb_refl. by exists v, x.
  - destruct (String.eqb_spec (name a) (name s)) as [Heq | _]; [| by apply IH].
    destruct Hnot. rewrite Heq. by apply list_elem_of_fmap_2.
Qed.

(** X13: [get_row] and [get_column] read the same cells.  On a frame of
    the data model, for a position inside the frame and a column of the
    frame, both calls return, leave the world as it was, and the entry
    of the row under the column name is the cell of the column at that
    position (an integer possibly converted to float64). *)
Theorem get_row_get_column_agree (self : CsvAnalyser) (index : Z) (column : string)
    (w : World) (t : DataFrame) :
  heap w !! df self = Some t →
  wf_frame t →
  (0 ≤ index < Z.of_nat (len t))%Z →
  column ∈ columns t →
  ∃ (r : RowSeries) (s : Series) (v v' : Value),
    get_row self index w = Some (Return r, w) ∧
    get_column self column w = Some (Return s, w) ∧
    name s = column ∧
    values s !! Z.to_nat index = Some v ∧
    assoc column (items r) = Some v' ∧
    upcast v v'.
Proof.
  intros Hl Hwf Hi Hin.
  destruct (iloc_position t index w Hwf) as (r & Hr & _ & Hrow); [lia |].
  rewrite ltb_false in Hrow by lia.
  apply list_elem_of_fmap in Hin as (s & -> & Hs).
  destruct (assoc_row_cell _ _ _ s (proj1 Hwf) Hrow Hs) as (v & v' & Hv & Hv' & Hup).
  exists r, s, v, v'. split; [| split].
  - unfold get_row. rewrite (bind_deref _ t) by done. by rewrite geb_false by lia.
  - unfold get_column. rewrite (bind_deref _ t) by done.
    rewrite bool_decide_eq_true_2 by by apply list_elem_of_fmap_2.
    apply getitem_unique; [apply Hwf | done].
  - done.
Qed.

Lemma get_row_get_column_agree_witness :
  heap (world_of [frame_AB]) !! df analyser0 = Some frame_AB ∧
  wf_frame frame_AB ∧
  (0 ≤ 1 < Z.of_nat (len frame_AB))%Z ∧
  "B" ∈ columns frame_AB ∧
  ∃ (r : RowSeries) (s : Series) (v v' : Value),
    get_row analyser0 1 (world_of [frame_AB]) = Some (Return r, world_of [frame_AB]) ∧
    get_column analyser0 "B" (world_of [frame_AB])
    = Some (Return s, world_of [frame_AB]) ∧
    name s = "B" ∧
    values s !! Z.to_nat 1 = Some v ∧
    assoc "B" (items r) = Some v' ∧
    upcast v v'.
Proof.
  assert (Hi : (0 ≤ 1 < Z.of_nat (len frame_AB))%Z) by (cbn; lia).
  assert (Hin : "B" ∈ columns frame_AB) by compute_done.
  split; [reflexivity |]. split; [exact frame_AB_wf |].
  split; [exact Hi |]. split; [exact Hin |].
  exact (get_row_get_column_agree analyser0 1 "B" (world_of [frame_AB]) frame_AB
           eq_refl frame_AB_wf Hi Hin).
Defined.

(** ** More on [filter_rows] *)

Lemma eqb_nan_r (f g : float) : is_nan f = true → PrimFloat.eqb g f = false.
Proof.
  unfold is_nan. rewrite !FloatAxioms.eqb_spec. unfold SFeqb.
  destruct (Prim2SF f) as [sf | sf | | sf mf ef]; cbn.
  - by destruct sf.
  - by destruct sf.
  - intros _. by destruct (Prim2SF g).
  - rewrite Z.compare_refl, Pos.compare_refl. by destruct sf.
Qed.

Lemma elem_eq_isna (d : Dtype) (x value : Value) :
  isna value = true → elem_eq d x value = false.
Proof.
  intros Hna. unfold elem_eq.
  assert (Hnp : np_eq x value = false).
  { destruct value as [| f | | |]; try done; destruct x; cbn; try done;
      by apply eqb_nan_r. }
  destruct d; try done. by rewrite Hna, orb_true_r.
Qed.

Lemma select_none {A} (mask : list bool) (l : list A) :
  Forall (λ b, b = false) mask → select mask l = [].
Proof.
  revert l. induction mask as [| b mask IH]; intros [| x l] Hall; try done.
  apply Forall_cons in Hall as [-> Hall]. cbn. by apply IH.
Qed.

Lemma select_fmap_self {A} (f : A → bool) (l : list A) :
  Forall (λ x, f x = true) (select (f <$> l) l).
Proof.
  induction l as [| x l IH]; [done |]. cbn.
  destruct (f x) eqn:Hx; [by constructor | done].
Qed.

(** X14: a missing value finds nothing.  On a frame with unique column
    names, [filter_rows(column, value)] with [value] being [None] or
    NaN returns, for every column of the frame, a frame with the same
    columns and no row at all, even when the column holds missing
    cells. *)
Theorem filter_rows_missing_value (self : CsvAnalyser) (column : string)
    (value : Value) (w : World) (t : DataFrame) :
  heap w !! df self = Some t →
  NoDup (columns t) →
  column ∈ columns t →
  isna value = true →
  ∃ (t' : DataFrame) (w' : World),
    filter_rows self column value w = Some (Return (length (heap w)), w') ∧
    heap w' = heap w ++ [t'] ∧
    columns t' = columns t ∧
    len t' = 0 ∧
    records t' = [].
Proof.
  intros Hl Hnd Hin Hna. unfold filter_rows. rewrite (bind_deref _ t) by done.
  rewrite bool_decide_eq_true_2 by done. cbn [negb].
  apply list_elem_of_fmap in Hin as (s & -> & Hs).
  unfold bind. rewrite getitem_unique by done.
  eexists _, _. split; [done |]. cbn [heap set_heap]. split; [done |].
  assert (Hlabels : select (series_eq s value) (row_labels t) = []).
  { apply select_none, Forall_fmap, Forall_forall. intros x _.
    by apply elem_eq_isna. }
  unfold columns, len, records, getitem_mask. cbn [cols row_labels].
  rewrite Hlabels, <- list_fmap_compose. done.
Qed.

Lemma filter_rows_missing_value_witness :
  heap (world_of [frame_gap]) !! df analyser0 = Some frame_gap ∧
  NoDup (columns frame_gap) ∧
  "A" ∈ columns frame_gap ∧
  isna NaN = true ∧
  ∃ (t' : DataFrame) (w' : World),
    filter_rows analyser0 "A" NaN (world_of [frame_gap]) = Some (Return 1, w') ∧
    heap w' = [frame_gap; t'] ∧
    len t' = 0.
Proof.
  assert (Hnd : NoDup (columns frame_gap)) by compute_done.
  assert (Hin : "A" ∈ columns frame_gap) by compute_done.
  split; [reflexivity |]. split; [exact Hnd |]. split; [exact Hin |].
  split; [reflexivity |].
  destruct (filter_rows_missing_value analyser0 "A" NaN (world_of [frame_gap])
              frame_gap eq_refl Hnd Hin eq_refl)
    as (t' & w' & Hrun & Hheap & _ & Hlen & _).
  by exists t', w'.
Defined.

(** X15: filtering twice is filtering once: an instance built on the
    frame that [filter_rows(column, value)] returned gets, from the
    same call, a frame equal to the one it was built on. *)
Theorem filter_rows_idempotent (self : CsvAnalyser) (column : string)
    (value : Value) (w : World) (t : DataFrame) :
  heap w !! df self = Some t →
  wf_frame t →
  column ∈ columns t →
  ∃ (r r' : loc) (t' : DataFrame) (w' : World),
    (r ←' filter_rows self column value;
     a ←' __init__ (Some r) None;
     r' ←' filter_rows a column value;
     ret (r, r')) w = Some (Return (r, r'), w') ∧
    r ≠ r' ∧
    heap w' !! r = Some t' ∧
    heap w' !! r' = Some t'.
Proof.
  intros Hl [Hnd Hlen] Hin.
  apply list_elem_of_fmap in Hin as (s & -> & Hs).
  set (t1 := getitem_mask t (series_eq s value)).
  set (s1 := select_series (series_eq s value) s).
  assert (Hcols : columns t1 = columns t).
  { unfold columns, t1, getitem_mask. cbn [cols]. by rewrite <- list_fmap_compose. }
  assert (Hs1 : s1 ∈ cols t1) by (by apply list_elem_of_fmap_2).
  assert (Hlen1 : Forall (λ s, length (values s) = len t1) (cols t1))
    by (by apply getitem_mask_lengths).
  assert (Hfix : getitem_mask t1 (series_eq s1 value) = t1).
  { apply getitem_mask_all; [done | |].
    - unfold series_eq, s1, select_series. cbn [dtype values].
      apply Forall_fmap. apply (select_fmap_self (λ x, elem_eq (dtype s) x value)).
    - unfold series_eq. rewrite length_fmap.
      rewrite Forall_forall in Hlen1. by apply Hlen1. }
  exists (length (heap w)), (S (length (heap w))), t1. eexists.
  unfold filter_rows at 1. unfold bind at 1.
  rewrite (bind_deref _ t) by done.
  rewrite bool_decide_eq_true_2 by by apply list_elem_of_fmap_2.
  cbn [negb]. unfold bind at 1. rewrite getitem_unique by done.
  unfold alloc at 1. fold t1.
  unfold bind at 1. cbn [__init__ ret]. unfold bind at 1.
  unfold filter_rows. cbn [df].
  rewrite (bind_deref _ t1) by (cbn [heap set_heap]; by apply list_lookup_middle).
  rewrite bool_decide_eq_true_2
    by (rewrite Hcols; by apply list_elem_of_fmap_2).
  cbn [negb]. unfold bind.
  rewrite (getitem_unique t1 s1) by (by rewrite ?Hcols).
  rewrite Hfix. unfold alloc, ret. cbn [heap set_heap].
  rewrite length_app, Nat.add_1_r.
  split; [done |]. split; [lia |]. cbn [heap set_heap]. split.
  - apply lookup_app_l_Some. by apply list_lookup_middle.
  - apply list_lookup_middle. by rewrite length_app, Nat.add_1_r.
Qed.

Lemma filter_rows_idempotent_witness :
  heap (world_of [frame_AB]) !! df analyser0 = Some frame_AB ∧
  wf_frame frame_AB ∧
  "A" ∈ columns frame_AB ∧
  ∃ (r r' : loc) (t' : DataFrame) (w' : World),
    (r ←' filter_rows analyser0 "A" (VInt 2);
     a ←' __init__ (Some r) None;
     r' ←' filter_rows a "A" (VInt 2);
     ret (r, r')) (world_of [frame_AB]) = Some (Return (r, r'), w') ∧
    r ≠ r' ∧
    heap w' !! r = Some t' ∧
    heap w' !! r' = Some t'.
Proof.
  assert (Hin : "A" ∈ columns frame_AB) by compute_done.
  split; [reflexivity |]. split; [exact frame_AB_wf |]. split; [exact Hin |].
  exact (filter_rows_idempotent analyser0 "A" (VInt 2) (world_of [frame_AB])
           frame_AB eq_refl frame_AB_wf Hin).
Defined.
